(** * UniversalProvider: backend auto-detection and usage normalisation

    A shallow embedding of the class [UniversalProvider] (the module that
    [extension.ts] imports as [./providers/universal]): the constructor,
    [fetchUsage] and the three probes [tryNewAPIBilling], [tryOneAPI] and
    [tryOpenRouter].

    Modelling choices.
    - JavaScript numbers are exact rationals ([Qc], canonical fractions, so
      that equality of records is plain equality).  Rounding, NaN and the
      infinities of IEEE doubles are not represented.
    - A response body is seen through the properties the provider reads.
      A property read as a number is [Some q] when it holds the number [q]
      and [None] when it is absent (or null); a property only tested for
      truthiness is a [bool].  Bodies that put a string, a boolean or an
      object where the wire shape has a number are outside the model.
    - The network is a function from requests to settled promises; every
      request the provider starts is appended to a log, so that "no request
      is issued" and "the next probe is attempted" are statements on the log.
    - [new Date()] followed by [formatDate] is an input: the three date
      strings of the usage windows come with the world. *)

From Stdlib Require Import String Ascii List Bool NArith QArith Qcanon.
Import ListNotations.

Open Scope list_scope.
Open Scope string_scope.

(** ** JavaScript helpers *)

(** Truthiness of a string: only the empty string is falsy. *)
Definition truthy (s : string) : bool := negb (String.eqb s "").

(** [v || 0] on a property read as a number: an absent property and the
    number zero are falsy. *)
Definition or_zero (v : option Qc) : Qc :=
  match v with
  | Some q => if Qeq_bool q 0 then 0%Qc else q
  | None => 0%Qc
  end.

(** [a >= b] on numbers. *)
Definition geb (a b : Qc) : bool := Qle_bool b a.

(** [a > b] on numbers. *)
Definition gtb (a b : Qc) : bool := negb (Qle_bool a b).

(** [o?.f]: the property [f] of [o], undefined when [o] is null or
    undefined. *)
Definition opt_chain {A B : Type} (o : option A) (f : A -> option B) : option B :=
  match o with
  | Some a => f a
  | None => None
  end.

(** [s.replace(/\/$/, '')]: without the [m] flag [$] matches at the end of the
    input only, so the one match there can be is the last character. *)
Fixpoint replace_trailing_slash (s : string) : string :=
  match s with
  | EmptyString => EmptyString
  | String c rest =>
      match rest with
      | EmptyString => if Ascii.eqb c "/" then EmptyString else s
      | String _ _ => String c (replace_trailing_slash rest)
      end
  end.

(** [s.includes(sub)]. *)
Fixpoint includes (s sub : string) : bool :=
  if String.prefix sub s then true
  else match s with
       | EmptyString => false
       | String _ rest => includes rest sub
       end.

(** [s.endsWith(sub)] for a one-character [sub]. *)
Fixpoint ends_with_char (s : string) (c : ascii) : bool :=
  match s with
  | EmptyString => false
  | String d rest =>
      match rest with
      | EmptyString => Ascii.eqb d c
      | String _ _ => ends_with_char rest c
      end
  end.

(** Whether the character [c] occurs in [s]. *)
Fixpoint has_char (s : string) (c : ascii) : bool :=
  match s with
  | EmptyString => false
  | String d rest => Ascii.eqb d c || has_char rest c
  end.

(** ** Wire shapes *)

Module Json.

(** The object under [data] of Format B and Format C responses. *)
Record Inner : Type := mkInner {
  quota : option Qc;
  used_quota : option Qc;
  usage : option Qc;
  limit : option Qc
}.

(** A truthy response body.  [error] is the truthiness of its [error]
    property. *)
Record Body : Type := mkBody {
  error : bool;
  hard_limit_usd : option Qc;
  total_usage : option Qc;
  data : option Inner
}.

End Json.

Module Axios.

(** The response object of the HTTP client; [data] is [None] for a falsy
    body. *)
Record Response : Type := mkResponse {
  data : option Json.Body
}.

Record Request : Type := mkRequest {
  url : string;
  params : list (string * string);
  headers : list (string * string);
  timeout : N
}.

(** The instance made by [axios.create]. *)
Record Instance : Type := create {
  default_timeout : N;
  default_headers : list (string * string)
}.

End Axios.

(** A settled promise. *)
Inductive Settled (A : Type) : Type :=
| Rejected : Settled A
| Fulfilled : A -> Settled A.

Arguments Rejected {A}.
Arguments Fulfilled {A} _.

(** What surrounds one invocation: the backend and the formatted dates. *)
Record World : Type := mkWorld {
  respond : Axios.Request -> Settled Axios.Response;
  todayStart : string;
  monthStart : string;
  yearStart : string
}.

(** ** Computations that may throw and that log the requests they start *)

Inductive Outcome (A : Type) : Type :=
| Throw : Outcome A
| Return : A -> Outcome A.

Arguments Throw {A}.
Arguments Return {A} _.

Definition Async (A : Type) : Type :=
  World -> list Axios.Request -> Outcome A * list Axios.Request.

Definition ret {A : Type} (a : A) : Async A :=
  fun _ log => (Return a, log).

Definition throw {A : Type} : Async A :=
  fun _ log => (Throw, log).

Definition bind {A B : Type} (m : Async A) (k : A -> Async B) : Async B :=
  fun w log =>
    match m w log with
    | (Throw, log') => (Throw, log')
    | (Return a, log') => k a w log'
    end.

(** [try { m } catch { h }]. *)
Definition try_catch {A : Type} (m h : Async A) : Async A :=
  fun w log =>
    match m w log with
    | (Throw, log') => h w log'
    | (Return a, log') => (Return a, log')
    end.

Definition ask : Async World :=
  fun w log => (Return w, log).

Declare Scope async_scope.
Delimit Scope async_scope with async.

Notation "'let*' x ':=' m 'in' k" := (bind m (fun x => k))
  (at level 61, x pattern, m at next level, right associativity) : async_scope.

Open Scope async_scope.

(** [client.get(url, { params })] without [await]: the request is started (and
    logged) and the promise is handed back. *)
Definition get (client : Axios.Instance) (url : string)
    (params : list (string * string)) : Async (Settled Axios.Response) :=
  fun w log =>
    let rq := Axios.mkRequest url params
                (Axios.default_headers client) (Axios.default_timeout client) in
    (Return (respond w rq), (log ++ [rq])%list).

(** [await p]: a rejected promise throws. *)
Definition await {A : Type} (p : Settled A) : Async A :=
  match p with
  | Rejected => throw
  | Fulfilled a => ret a
  end.

(** [Promise.all(ps)]: fulfilled with all the values when every promise is,
    rejected as soon as one is. *)
Fixpoint Promise_all {A : Type} (ps : list (Settled A)) : Settled (list A) :=
  match ps with
  | [] => Fulfilled []
  | Rejected :: _ => Rejected
  | Fulfilled a :: rest =>
      match Promise_all rest with
      | Rejected => Rejected
      | Fulfilled l => Fulfilled (a :: l)
      end
  end.

(** ** The provider *)

Record UsageResult : Type := mkUsageResult {
  todayUsed : Qc;
  monthUsed : Qc;
  totalUsed : Qc;
  total : Qc;
  remaining : Qc;
  type : string;
  error : option string
}.

Record UniversalProvider : Type := mkUniversalProvider {
  client : Axios.Instance;
  apiKey : string;
  endpoint : string
}.

(** [new UniversalProvider(apiKey, endpoint)]. *)
Definition new_UniversalProvider (apiKey endpoint : string) : UniversalProvider :=
  {| apiKey := apiKey;
     endpoint := replace_trailing_slash endpoint;
     client := Axios.create 30000
                 [("Authorization", "Bearer " ++ apiKey);
                  ("Content-Type", "application/json")] |}.

Definition usage_params (start_date end_date : string) : list (string * string) :=
  [("start_date", start_date); ("end_date", end_date)].

(** Format A.  [Promise.all] of three promises is fulfilled with three
    responses; the last branch of the destructuring does not arise. *)
Definition tryNewAPIBilling (this : UniversalProvider) : Async (option UsageResult) :=
  try_catch
    (let* subPromise :=
       get (client this) (endpoint this ++ "/v1/dashboard/billing/subscription") [] in
     let* subResponse := await subPromise in
     match Axios.data subResponse with
     | None => ret None
     | Some sub =>
         if Json.error sub then ret None
         else
           let hardLimitUsd := or_zero (Json.hard_limit_usd sub) in
           let* now := ask in
           let todayEnd := todayStart now in
           let* p1 := get (client this) (endpoint this ++ "/v1/dashboard/billing/usage")
                        (usage_params (todayStart now) todayEnd) in
           let* p2 := get (client this) (endpoint this ++ "/v1/dashboard/billing/usage")
                        (usage_params (monthStart now) todayEnd) in
           let* p3 := get (client this) (endpoint this ++ "/v1/dashboard/billing/usage")
                        (usage_params (yearStart now) todayEnd) in
           let* responses := await (Promise_all [p1; p2; p3]) in
           match responses with
           | [todayResponse; monthResponse; totalResponse] =>
               let todayUsed :=
                 (or_zero (opt_chain (Axios.data todayResponse) Json.total_usage) / Q2Qc 100)%Qc in
               let monthUsed :=
                 (or_zero (opt_chain (Axios.data monthResponse) Json.total_usage) / Q2Qc 100)%Qc in
               let totalUsed :=
                 (or_zero (opt_chain (Axios.data totalResponse) Json.total_usage) / Q2Qc 100)%Qc in
               let isUnlimited := geb hardLimitUsd (Q2Qc 1000000) in
               ret (Some {| todayUsed := todayUsed;
                            monthUsed := monthUsed;
                            totalUsed := totalUsed;
                            total := if isUnlimited then 0%Qc else hardLimitUsd;
                            remaining := if isUnlimited then 0%Qc
                                         else (hardLimitUsd - totalUsed)%Qc;
                            type := "NewAPI";
                            error := None |})
           | _ => throw
           end
     end)
    (ret None).

(** Format B. *)
Definition tryOneAPI (this : UniversalProvider) : Async (option UsageResult) :=
  try_catch
    (let* promise := get (client this) (endpoint this ++ "/api/user/self") [] in
     let* response := await promise in
     match opt_chain (Axios.data response) Json.data with
     | None => ret None
     | Some data =>
         let quota := (or_zero (Json.quota data) / Q2Qc 500000)%Qc in
         let usedQuota := (or_zero (Json.used_quota data) / Q2Qc 500000)%Qc in
         ret (Some {| todayUsed := 0%Qc;
                      monthUsed := 0%Qc;
                      totalUsed := usedQuota;
                      total := (quota + usedQuota)%Qc;
                      remaining := quota;
                      type := "OneAPI";
                      error := None |})
     end)
    (ret None).

(** Format C. *)
Definition tryOpenRouter (this : UniversalProvider) : Async (option UsageResult) :=
  if negb (includes (endpoint this) "openrouter.ai") then ret None
  else
    try_catch
      (let* promise := get (client this) "https://openrouter.ai/api/v1/auth/key" [] in
       let* response := await promise in
       match opt_chain (Axios.data response) Json.data with
       | None => ret None
       | Some data =>
           let usage := or_zero (Json.usage data) in
           let limit := or_zero (Json.limit data) in
           ret (Some {| todayUsed := 0%Qc;
                        monthUsed := 0%Qc;
                        totalUsed := usage;
                        total := limit;
                        remaining := if gtb limit 0%Qc then (limit - usage)%Qc else 0%Qc;
                        type := "OpenRouter";
                        error := None |})
       end)
      (ret None).

(** The record returned when nothing could be read. *)
Definition unknown (message : string) : UsageResult :=
  {| todayUsed := 0%Qc;
     monthUsed := 0%Qc;
     totalUsed := 0%Qc;
     total := 0%Qc;
     remaining := 0%Qc;
     type := "unknown";
     error := Some message |}.

(** [result && !result.error]. *)
Definition accepted (result : option UsageResult) : option UsageResult :=
  match result with
  | Some r =>
      match error r with
      | None => Some r
      | Some e => if truthy e then None else Some r
      end
  | None => None
  end.

(** The [for (const detector of detectors)] loop of [fetchUsage] and the
    [return] after it.  One iteration gives [Some r] when it leaves the
    function with [r]. *)
Fixpoint for_detectors (detectors : list (Async (option UsageResult)))
  : Async UsageResult :=
  match detectors with
  | [] => ret (unknown "Unable to detect API type")
  | detector :: rest =>
      let* returned :=
        try_catch (let* result := detector in ret (accepted result)) (ret None) in
      match returned with
      | Some r => ret r
      | None => for_detectors rest
      end
  end.

Definition fetchUsage (this : UniversalProvider) : Async UsageResult :=
  if negb (truthy (apiKey this)) || negb (truthy (endpoint this)) then
    ret (unknown "API Key or Endpoint not configured")
  else
    for_detectors [tryNewAPIBilling this; tryOneAPI this; tryOpenRouter this].

(** ** The requests of the probes *)

Definition request_of (this : UniversalProvider) (url : string)
    (params : list (string * string)) : Axios.Request :=
  Axios.mkRequest url params
    (Axios.default_headers (client this)) (Axios.default_timeout (client this)).

Definition subscription_request (this : UniversalProvider) : Axios.Request :=
  request_of this (endpoint this ++ "/v1/dashboard/billing/subscription") [].

Definition usage_request (this : UniversalProvider) (start_date end_date : string)
  : Axios.Request :=
  request_of this (endpoint this ++ "/v1/dashboard/billing/usage")
    (usage_params start_date end_date).

Definition self_request (this : UniversalProvider) : Axios.Request :=
  request_of this (endpoint this ++ "/api/user/self") [].

Definition key_request (this : UniversalProvider) : Axios.Request :=
  request_of this "https://openrouter.ai/api/v1/auth/key" [].

(** The four requests of a complete Format A probe, in the order they are
    started. *)
Definition newapi_requests (this : UniversalProvider) (w : World) : list Axios.Request :=
  [subscription_request this;
   usage_request this (todayStart w) (todayStart w);
   usage_request this (monthStart w) (todayStart w);
   usage_request this (yearStart w) (todayStart w)].

(** ** Worlds and providers used as concrete inputs *)

Definition fulfilled_with (body : Json.Body) : Settled Axios.Response :=
  Fulfilled (Axios.mkResponse (Some body)).

Definition no_inner : option Json.Inner := None.

Definition subscription_body (hard_limit_usd : option Qc) : Json.Body :=
  Json.mkBody false hard_limit_usd None no_inner.

Definition usage_body (total_usage : Qc) : Json.Body :=
  Json.mkBody false None (Some total_usage) no_inner.

Definition start_date_of (rq : Axios.Request) : string :=
  match Axios.params rq with
  | (_, d) :: _ => d
  | [] => ""
  end.

Definition has_suffix (s suffix : string) : bool :=
  String.eqb
    (substring (String.length s - String.length suffix) (String.length suffix) s)
    suffix.

(** A Format A backend: the subscription answers [hard_limit_usd], the usage
    windows starting at 2024-05-17, 2024-05-01 and 2024-01-01 answer [t], [m]
    and [y] cents; every other request is rejected. *)
Definition newapi_backend (hard_limit_usd : option Qc) (t m y : Qc)
  : Axios.Request -> Settled Axios.Response :=
  fun rq =>
    if has_suffix (Axios.url rq) "/v1/dashboard/billing/subscription" then
      fulfilled_with (subscription_body hard_limit_usd)
    else if has_suffix (Axios.url rq) "/v1/dashboard/billing/usage" then
      if String.eqb (start_date_of rq) "2024-05-17" then fulfilled_with (usage_body t)
      else if String.eqb (start_date_of rq) "2024-05-01" then fulfilled_with (usage_body m)
      else fulfilled_with (usage_body y)
    else Rejected.

(** A Format B backend: only [/api/user/self] answers, with the two quota
    fields under [data]. *)
Definition oneapi_backend (quota used_quota : option Qc)
  : Axios.Request -> Settled Axios.Response :=
  fun rq =>
    if has_suffix (Axios.url rq) "/api/user/self" then
      fulfilled_with
        (Json.mkBody false None None (Some (Json.mkInner quota used_quota None None)))
    else Rejected.

(** A Format C backend: only the key endpoint answers. *)
Definition openrouter_backend (usage limit : option Qc)
  : Axios.Request -> Settled Axios.Response :=
  fun rq =>
    if String.eqb (Axios.url rq) "https://openrouter.ai/api/v1/auth/key" then
      fulfilled_with
        (Json.mkBody false None None (Some (Json.mkInner None None usage limit)))
    else Rejected.

Definition world_of (backend : Axios.Request -> Settled Axios.Response) : World :=
  mkWorld backend "2024-05-17" "2024-05-01" "2024-01-01".

(** The worlds of the scenarios: a Format A backend with a limit of 50 dollars
    and 250, 4000 and 4500 cents used; a Format B backend with 2500000 units
    left and 500000 used; a backend that rejects every request. *)
Definition newapi_world : World :=
  world_of (newapi_backend (Some (Q2Qc 50)) (Q2Qc 250) (Q2Qc 4000) (Q2Qc 4500)).

Definition oneapi_world : World :=
  world_of (oneapi_backend (Some (Q2Qc 2500000)) (Some (Q2Qc 500000))).

Definition dead_world : World := world_of (fun _ => Rejected).

(** The key endpoint reports 12.34 dollars used of a limit of 100. *)
Definition openrouter_world : World :=
  world_of (openrouter_backend (Some (Q2Qc (1234 # 100))) (Some (Q2Qc 100))).

(** A Format B backend whose [data] has no [quota]. *)
Definition oneapi_partial_world : World :=
  world_of (oneapi_backend None (Some (Q2Qc 500000))).

(** A backend whose subscription answers and whose usage endpoint rejects the
    window that starts with the month. *)
Definition month_failing_backend : Axios.Request -> Settled Axios.Response :=
  fun rq =>
    if has_suffix (Axios.url rq) "/v1/dashboard/billing/usage"
       && String.eqb (start_date_of rq) "2024-05-01"
    then Rejected
    else newapi_backend (Some (Q2Qc 50)) (Q2Qc 250) (Q2Qc 4000) (Q2Qc 4500) rq.

Definition month_failing_world : World := world_of month_failing_backend.

(** A Format A backend without spending limit: [hard_limit_usd] is 2000000
    and 4500 cents were used this year. *)
Definition unlimited_world : World :=
  world_of (newapi_backend (Some (Q2Qc 2000000)) (Q2Qc 250) (Q2Qc 4000) (Q2Qc 4500)).

(** A Format A backend whose subscription has no [hard_limit_usd]. *)
Definition no_limit_world : World :=
  world_of (newapi_backend None (Q2Qc 250) (Q2Qc 4000) (Q2Qc 4500)).

(** The records the Format A probe computes in [newapi_world], in
    [unlimited_world] and in [no_limit_world]. *)
Definition newapi_record : UsageResult :=
  {| todayUsed := (Q2Qc 250 / Q2Qc 100)%Qc;
     monthUsed := (Q2Qc 4000 / Q2Qc 100)%Qc;
     totalUsed := (Q2Qc 4500 / Q2Qc 100)%Qc;
     total := Q2Qc 50;
     remaining := (Q2Qc 50 - Q2Qc 4500 / Q2Qc 100)%Qc;
     type := "NewAPI";
     error := None |}.

Definition unlimited_record : UsageResult :=
  {| todayUsed := (Q2Qc 250 / Q2Qc 100)%Qc;
     monthUsed := (Q2Qc 4000 / Q2Qc 100)%Qc;
     totalUsed := (Q2Qc 4500 / Q2Qc 100)%Qc;
     total := 0%Qc;
     remaining := 0%Qc;
     type := "NewAPI";
     error := None |}.

Definition no_limit_record : UsageResult :=
  {| todayUsed := (Q2Qc 250 / Q2Qc 100)%Qc;
     monthUsed := (Q2Qc 4000 / Q2Qc 100)%Qc;
     totalUsed := (Q2Qc 4500 / Q2Qc 100)%Qc;
     total := 0%Qc;
     remaining := (0 - Q2Qc 4500 / Q2Qc 100)%Qc;
     type := "NewAPI";
     error := None |}.

(** A property read as a number is falsy when it is absent or zero. *)
Definition falsy_number (v : option Qc) : Prop := v = None \/ v = Some 0%Qc.

(** A probe never throws, only adds requests to the log, and the record it
    gives, if any, has no [error]. *)
Definition probe_like (detector : Async (option UsageResult)) : Prop :=
  forall (w : World) (log : list Axios.Request),
  exists (result : option UsageResult) (requests : list Axios.Request),
    detector w log = (Return result, (log ++ requests)%list)
    /\ forall r, result = Some r -> error r = None.

Ltac probe_done requests :=
  eexists; exists requests; split;
  [ eassumption
  | let r := fresh "r" in let E := fresh "E" in
    intros r E; first [discriminate E | injection E as <-; reflexivity] ].

(** A probe that gives nothing: it threw or it returned [null]. *)
Definition gives_nothing
    (run : Outcome (option UsageResult) * list Axios.Request) : Prop :=
  fst run = Throw \/ fst run = Return None.

Definition example_provider : UniversalProvider :=
  new_UniversalProvider "sk-test" "https://api.example.com".

Definition openrouter_provider : UniversalProvider :=
  new_UniversalProvider "sk-or-test" "https://openrouter.ai/api/v1".

(** ** Where requests may go *)

(** The requests a run of [fetchUsage] can start against the configured
    endpoint: those of Format A and the one of Format B. *)
Definition endpoint_requests (this : UniversalProvider) (w : World)
  : list Axios.Request :=
  (newapi_requests this w ++ [self_request this])%list.

(** A body or a world without negative numbers. *)
Definition nonnegative (v : option Qc) : Prop :=
  forall q, v = Some q -> (0 <= q)%Qc.

Definition nonnegative_inner (d : Json.Inner) : Prop :=
  nonnegative (Json.quota d) /\ nonnegative (Json.used_quota d)
  /\ nonnegative (Json.usage d) /\ nonnegative (Json.limit d).

Definition nonnegative_body (b : Json.Body) : Prop :=
  nonnegative (Json.hard_limit_usd b) /\ nonnegative (Json.total_usage b)
  /\ forall d, Json.data b = Some d -> nonnegative_inner d.

Definition nonnegative_world (w : World) : Prop :=
  forall rq b, respond w rq = fulfilled_with b -> nonnegative_body b.

(** The record the Format B probe computes in [oneapi_world]. *)
Definition oneapi_record : UsageResult :=
  {| todayUsed := 0%Qc;
     monthUsed := 0%Qc;
     totalUsed := (Q2Qc 500000 / Q2Qc 500000)%Qc;
     total := (Q2Qc 2500000 / Q2Qc 500000 + Q2Qc 500000 / Q2Qc 500000)%Qc;
     remaining := (Q2Qc 2500000 / Q2Qc 500000)%Qc;
     type := "OneAPI";
     error := None |}.

(** The signs of a record: nothing used or granted is negative, and what
    remains does not exceed the total. *)
Definition signs_ok (r : UsageResult) : Prop :=
  (0 <= todayUsed r)%Qc /\ (0 <= monthUsed r)%Qc /\ (0 <= totalUsed r)%Qc
  /\ (0 <= total r)%Qc /\ (remaining r <= total r)%Qc.

(** A backend that answers every route with a truthy body holding none of the
    fields the probes read. *)
Definition blank_body : Json.Body := Json.mkBody false None None None.

Definition blank_world : World := world_of (fun _ => fulfilled_with blank_body).

(** ** The CC Switch reader ([ccswitch.ts])

    [isCCSwitchInstalled] and [readCCSwitchProviders] look at the disk and run
    [sqlite3]; what they return is an input here.  [getCurrentProvider] is
    modelled on the list that [readCCSwitchProviders] returned. *)

Module CCSwitch.

Record UsageScript : Type := mkUsageScript {
  enabled : bool;
  code : string
}.

(** [CCSwitchProvider]. *)
Record Provider : Type := mkProvider {
  id : string;
  name : string;
  appType : string;
  endpoint : string;
  apiKey : string;
  model : string;
  isCurrent : bool;
  usageScript : option UsageScript
}.

(** What the two readers return during one refresh. *)
Record Reads : Type := mkReads {
  isCCSwitchInstalled : bool;
  readCCSwitchProviders : list Provider
}.

(** [providers.find(p => p.isCurrent) || providers[0] || null]. *)
Definition getCurrentProvider (reads : Reads) : option Provider :=
  let providers := readCCSwitchProviders reads in
  match List.find isCurrent providers with
  | Some p => Some p
  | None =>
      match providers with
      | p :: _ => Some p
      | [] => None
      end
  end.

End CCSwitch.

(** ** The status bar ([extension.ts])

    [Number.prototype.toFixed] belongs to the runtime and is a parameter of
    the functions that format amounts.  The status bar item and the Markdown
    tooltip are seen through the properties the code writes. *)

Module Vscode.

Record MarkdownString : Type := mkMarkdownString {
  value : string;
  isTrusted : bool;
  supportHtml : bool
}.

(** [new vscode.MarkdownString()]. *)
Definition new_MarkdownString : MarkdownString := mkMarkdownString "" false false.

Definition appendMarkdown (md : MarkdownString) (s : string) : MarkdownString :=
  mkMarkdownString (value md ++ s) (isTrusted md) (supportHtml md).

Inductive Tooltip : Type :=
| Plain : string -> Tooltip
| Markdown : MarkdownString -> Tooltip.

Record StatusBarItem : Type := mkStatusBarItem {
  text : string;
  tooltip : option Tooltip
}.

(** The settings under [apiUsageTracker], defaults applied. *)
Record Configuration : Type := mkConfiguration {
  apiKey : string;
  endpoint : string;
  initialBalance : Qc
}.

End Vscode.

Module ApiConfig.

(** The object [getApiConfig] returns. *)
Record t : Type := make {
  apiKey : string;
  endpoint : string;
  providerName : string
}.

End ApiConfig.

Module Extension.

(** The module-level variables that a refresh reads or writes. *)
Record State : Type := mkState {
  statusBarItem : Vscode.StatusBarItem;
  lastUsage : option UsageResult;
  currentProviderName : string
}.

Definition set_text (s : State) (text : string) : State :=
  mkState (Vscode.mkStatusBarItem text (Vscode.tooltip (statusBarItem s)))
    (lastUsage s) (currentProviderName s).

Definition set_tooltip (s : State) (tooltip : Vscode.Tooltip) : State :=
  mkState (Vscode.mkStatusBarItem (Vscode.text (statusBarItem s)) (Some tooltip))
    (lastUsage s) (currentProviderName s).

Definition set_lastUsage (s : State) (usage : UsageResult) : State :=
  mkState (statusBarItem s) (Some usage) (currentProviderName s).

Definition set_currentProviderName (s : State) (name : string) : State :=
  mkState (statusBarItem s) (lastUsage s) name.

(** A line feed, for the [\n] of the template strings. *)
Definition nl : string := String (ascii_of_nat 10) "".

(** [if (usage.error)]: the message when there is a non-empty one. *)
Definition truthy_error (usage : UsageResult) : option string :=
  match error usage with
  | Some e => if truthy e then Some e else None
  | None => None
  end.

(** [getApiConfig]: the current CC Switch provider when it has both a key and
    an endpoint, the settings otherwise. *)
Definition getApiConfig (config : Vscode.Configuration) (reads : CCSwitch.Reads)
  : ApiConfig.t :=
  let fallback :=
    ApiConfig.make (Vscode.apiKey config) (Vscode.endpoint config) "" in
  if CCSwitch.isCCSwitchInstalled reads then
    match CCSwitch.getCurrentProvider reads with
    | Some provider =>
        if truthy (CCSwitch.apiKey provider) && truthy (CCSwitch.endpoint provider)
        then ApiConfig.make (CCSwitch.apiKey provider) (CCSwitch.endpoint provider)
               (CCSwitch.name provider)
        else fallback
    | None => fallback
    end
  else fallback.

(** [providerName ? `[${providerName}] ` : ''], and the same on
    [currentProviderName]. *)
Definition prefix_of (providerName : string) : string :=
  if truthy providerName then "[" ++ providerName ++ "] " else "".

Section Display.

Variable toFixed : Qc -> nat -> string.

Definition updateStatusBar (config : Vscode.Configuration) (usage : UsageResult)
    (s : State) : State :=
  let initialBalance := Vscode.initialBalance config in
  let prefix := prefix_of (currentProviderName s) in
  match truthy_error usage with
  | Some message =>
      set_tooltip (set_text s ("$(warning) " ++ prefix ++ message))
        (Vscode.Plain message)
  | None =>
      let hasApiBalance := gtb (total usage) 0%Qc in
      let remaining :=
        if hasApiBalance then remaining usage
        else if gtb initialBalance 0%Qc then (initialBalance - totalUsed usage)%Qc
             else 0%Qc in
      let total := if hasApiBalance then total usage else initialBalance in
      let s1 :=
        if hasApiBalance || gtb initialBalance 0%Qc
        then set_text s ("$(credit-card) " ++ prefix ++ "$" ++ toFixed remaining 2)
        else set_text s ("$(credit-card) " ++ prefix ++ "今日: $"
                         ++ toFixed (todayUsed usage) 2) in
      let md0 :=
        Vscode.mkMarkdownString (Vscode.value Vscode.new_MarkdownString) true true in
      let md1 :=
        if truthy (currentProviderName s)
        then Vscode.appendMarkdown md0 ("### 🔌 " ++ currentProviderName s ++ nl ++ nl)
        else md0 in
      let md2 := Vscode.appendMarkdown md1 ("### 📊 API 用量统计" ++ nl ++ nl) in
      let md3 :=
        if hasApiBalance || gtb initialBalance 0%Qc
        then
          let usagePercent :=
            if gtb total 0%Qc
            then toFixed (totalUsed usage / total * Q2Qc 100)%Qc 1
            else "0" in
          Vscode.appendMarkdown
            (Vscode.appendMarkdown
               (Vscode.appendMarkdown md2
                  ("💰 **剩余余额**: $" ++ toFixed remaining 2 ++ nl ++ nl))
               ("📊 **已使用**: " ++ usagePercent ++ "% (总额度 $"
                ++ toFixed total 2 ++ ")" ++ nl ++ nl))
            ("---" ++ nl ++ nl)
        else md2 in
      let md4 :=
        Vscode.appendMarkdown md3
          ("🔵 **每日费用**: $" ++ toFixed (todayUsed usage) 4 ++ nl ++ nl) in
      let md5 :=
        Vscode.appendMarkdown md4
          ("🟣 **本月费用**: $" ++ toFixed (monthUsed usage) 4 ++ nl ++ nl) in
      let md6 :=
        Vscode.appendMarkdown md5
          ("🟢 **总费用**: $" ++ toFixed (totalUsed usage) 4 ++ nl ++ nl) in
      let md7 := Vscode.appendMarkdown md6 ("---" ++ nl ++ nl) in
      let md8 := Vscode.appendMarkdown md7 "*点击查看详情或切换 Provider*" in
      set_tooltip s1 (Vscode.Markdown md8)
  end.

(** [refreshUsage].  The state is threaded by hand: what was written before a
    throw is still there in the handler. *)
Definition refreshUsage (config : Vscode.Configuration) (reads : CCSwitch.Reads)
    (s : State) : Async State :=
  let api := getApiConfig config reads in
  let s1 := set_currentProviderName s (ApiConfig.providerName api) in
  if negb (truthy (ApiConfig.apiKey api)) || negb (truthy (ApiConfig.endpoint api))
  then
    if CCSwitch.isCCSwitchInstalled reads
    then ret (set_tooltip (set_text s1 "$(plug) 选择 Provider")
                (Vscode.Plain "点击选择 CC Switch Provider"))
    else ret (set_tooltip (set_text s1 "$(key) Configure API")
                (Vscode.Plain "Click to configure API Key and Endpoint"))
  else
    let prefix := prefix_of (ApiConfig.providerName api) in
    let s2 := set_text s1 ("$(sync~spin) " ++ prefix ++ "Loading...") in
    try_catch
      (let provider :=
         new_UniversalProvider (ApiConfig.apiKey api) (ApiConfig.endpoint api) in
       let* result := fetchUsage provider in
       let s3 := set_lastUsage s2 result in
       ret (updateStatusBar config result s3))
      (ret (set_tooltip (set_text s2 ("$(error) " ++ prefix ++ "Error"))
              (Vscode.Plain "Failed to fetch usage data"))).

End Display.

End Extension.

(** ** A reading of [toFixed] on exact numbers

    Used where a concrete formatter is needed: the sign, then the integer
    nearest to the magnitude scaled by [10^digits] (the larger one on a tie),
    written with [digits] decimals. *)

Fixpoint decimal_from (fuel : nat) (n : N) (acc : string) : string :=
  match fuel with
  | O => acc
  | S fuel' =>
      let acc' := String (ascii_of_N (48 + n mod 10)) acc in
      if (n / 10 =? 0)%N then acc' else decimal_from fuel' (n / 10)%N acc'
  end.

Definition decimal (n : N) : string :=
  decimal_from (S (N.to_nat (N.log2 n))) n "".

Fixpoint pad_zeros (width : nat) (s : string) : string :=
  match width with
  | O => s
  | S width' =>
      if Nat.ltb (String.length s) width then pad_zeros width' ("0" ++ s) else s
  end.

Definition toFixed_exact (x : Qc) (digits : nat) : string :=
  let scale := (10 ^ Z.of_nat digits)%Z in
  let magnitude := (Z.abs (Qnum x) # Qden x)%Q in
  let scaled := (magnitude * inject_Z scale + (1 # 2))%Q in
  let n := (Qnum scaled / Zpos (Qden scaled))%Z in
  (if gtb 0%Qc x then "-" else "")
  ++ decimal (Z.to_N (n / scale))
  ++ (if Nat.eqb digits 0 then ""
      else "." ++ pad_zeros digits (decimal (Z.to_N (n mod scale)))).

(** ** Inputs for the status bar *)

(** The state before the first refresh. *)
Definition initial_state : Extension.State :=
  Extension.mkState (Vscode.mkStatusBarItem "" None) None "".

Definition no_ccswitch : CCSwitch.Reads := CCSwitch.mkReads false [].

Definition example_configuration : Vscode.Configuration :=
  Vscode.mkConfiguration "sk-test" "https://api.example.com" 0%Qc.

Definition slash_configuration : Vscode.Configuration :=
  Vscode.mkConfiguration "sk-test" "/" 0%Qc.

Definition empty_configuration : Vscode.Configuration :=
  Vscode.mkConfiguration "" "" 0%Qc.

(** Two providers stored by CC Switch, the second one current. *)
Definition relay_provider : CCSwitch.Provider :=
  CCSwitch.mkProvider "p1" "Relay" "claude" "https://relay.example.com" "sk-relay"
    "sonnet" false None.

Definition router_provider : CCSwitch.Provider :=
  CCSwitch.mkProvider "p2" "Router" "claude" "https://openrouter.ai/api/v1" "sk-or"
    "sonnet" true None.

Definition example_reads : CCSwitch.Reads :=
  CCSwitch.mkReads true [relay_provider; router_provider].

(** The status bar text a run ends with. *)
Definition final_text (run : Outcome Extension.State * list Axios.Request)
  : option string :=
  match fst run with
  | Return s => Some (Vscode.text (Extension.statusBarItem s))
  | Throw => None
  end.

(** ** The single-backend providers (classes over [BaseProvider])

    They run against the same backend as [UniversalProvider].  What they read
    beyond the properties of the bodies above comes with [Legacy.Reads]: the
    error object of a rejected request, the [request_count] under [data], and
    the clock.  A [Date] is seen through its local year, month, day and time
    of day. *)

Module JsDate.

Record t : Type := make {
  getFullYear : Z;
  getMonth : Z;
  getDate : Z;
  timeOfDay : Z
}.

(** [new Date(year, month, day)]: local midnight. *)
Definition of_ymd (year month day : Z) : t := make year month day 0.

End JsDate.

Module QuotaInfo.

Record t : Type := make {
  total : Qc;
  used : Qc;
  remaining : Qc;
  unit : string
}.

End QuotaInfo.

Module UsagePeriod.

Record t : Type := make {
  start : JsDate.t;
  finish : JsDate.t;
  type : string
}.

End UsagePeriod.

Module UsageData.

Record t : Type := make {
  provider : string;
  totalTokens : Qc;
  promptTokens : Qc;
  completionTokens : Qc;
  totalCost : Qc;
  currency : string;
  requestCount : Qc;
  quota : option QuotaInfo.t;
  period : UsagePeriod.t;
  lastUpdated : JsDate.t;
  error : option string
}.

End UsageData.

Module ProviderConfig.

Record t : Type := make {
  apiKey : string;
  organizationId : option string;
  endpoint : option string;
  subscriptionId : option string;
  secretKey : option string;
  enabled : bool
}.

End ProviderConfig.

Module AxiosError.

(** The error of a rejected request, through the three messages the
    providers look for: [error.response?.data?.message],
    [error.response?.data?.error?.message] and [error.message]. *)
Record t : Type := make {
  response_data_message : option string;
  response_data_error_message : option string;
  message : option string
}.

End AxiosError.

Module Legacy.

Record Reads : Type := mkReads {
  failure : Axios.Request -> AxiosError.t;
  request_count : Axios.Request -> option Qc;
  now : JsDate.t
}.

(** [a || b] on strings, [a] possibly undefined. *)
Definition or_string (a : option string) (b : string) : string :=
  match a with
  | Some s => if truthy s then s else b
  | None => b
  end.

(** The headers of [getDefaultHeaders] in the three classes. *)
Definition getDefaultHeaders (config : ProviderConfig.t) : list (string * string) :=
  [("Authorization", "Bearer " ++ ProviderConfig.apiKey config);
   ("Content-Type", "application/json")].

(** [BaseProvider]: its fields after the constructor. *)
Record BaseProvider : Type := mkBaseProvider {
  client : Axios.Instance;
  config : ProviderConfig.t;
  providerId : string
}.

Definition new_BaseProvider (providerId : string) (config : ProviderConfig.t)
  : BaseProvider :=
  mkBaseProvider (Axios.create 30000 (getDefaultHeaders config)) config providerId.

(** [createEmptyUsageData(error)]. *)
Definition createEmptyUsageData (x : Reads) (this : BaseProvider)
    (error : option string) : UsageData.t :=
  let now := now x in
  let startOfMonth := JsDate.of_ymd (JsDate.getFullYear now) (JsDate.getMonth now) 1 in
  UsageData.make (providerId this) 0%Qc 0%Qc 0%Qc 0%Qc "USD" 0%Qc None
    (UsagePeriod.make startOfMonth now "monthly") now error.

(** [client.get(url, { headers: this.getDefaultHeaders(), params })], awaited:
    the response, or the error object of the rejection.  The headers given
    with the call are the instance's own. *)
Definition get_or_error (x : Reads) (this : BaseProvider) (url : string)
    (params : list (string * string)) : Async (AxiosError.t + Axios.Response) :=
  fun w log =>
    let rq := Axios.mkRequest url params (getDefaultHeaders (config this))
                (Axios.default_timeout (client this)) in
    (Return match respond w rq with
            | Rejected => inl (failure x rq)
            | Fulfilled response => inr response
            end,
     (log ++ [rq])%list).

(** *** [OneAPIProvider] and [NewAPIProvider] *)

Record OneAPIProvider : Type := mkOneAPIProvider {
  oneapi_base : BaseProvider;
  oneapi_baseUrl : string
}.

Definition new_OneAPIProvider (config : ProviderConfig.t) : OneAPIProvider :=
  mkOneAPIProvider (new_BaseProvider "oneapi" config)
    (replace_trailing_slash (or_string (ProviderConfig.endpoint config) "")).

(** [NewAPIProvider]: the same object with [providerId] overwritten. *)
Definition new_NewAPIProvider (config : ProviderConfig.t) : OneAPIProvider :=
  let this := new_OneAPIProvider config in
  mkOneAPIProvider
    (mkBaseProvider (client (oneapi_base this)) (Legacy.config (oneapi_base this)) "newapi")
    (oneapi_baseUrl this).

Definition OneAPIProvider_isConfigured (this : OneAPIProvider) : bool :=
  truthy (ProviderConfig.apiKey (config (oneapi_base this)))
  && Nat.ltb 0 (String.length (ProviderConfig.apiKey (config (oneapi_base this))))
  && truthy (oneapi_baseUrl this).

(** [OneAPIProvider.fetchUsage].  In its [try] block only the awaited request
    can throw; the [catch] is the [inl] branch. *)
Definition OneAPIProvider_fetchUsage (x : Reads) (this : OneAPIProvider)
  : Async UsageData.t :=
  if negb (OneAPIProvider_isConfigured this) then
    ret (createEmptyUsageData x (oneapi_base this)
           (Some "API key or endpoint not configured"))
  else
    let now := now x in
    let startOfMonth := JsDate.of_ymd (JsDate.getFullYear now) (JsDate.getMonth now) 1 in
    let url := oneapi_baseUrl this ++ "/api/user/self" in
    let* reply := get_or_error x (oneapi_base this) url [] in
    match reply with
    | inl error =>
        let errorMessage :=
          or_string (AxiosError.response_data_message error)
            (or_string (AxiosError.message error) "Failed to fetch usage") in
        ret (createEmptyUsageData x (oneapi_base this) (Some errorMessage))
    | inr response =>
        match opt_chain (Axios.data response) Json.data with
        | None =>
            ret (createEmptyUsageData x (oneapi_base this)
                   (Some "Invalid response from OneAPI"))
        | Some data =>
            let quota := (or_zero (Json.quota data) / Q2Qc 1000000)%Qc in
            let usedQuota := (or_zero (Json.used_quota data) / Q2Qc 1000000)%Qc in
            let totalQuota := (quota + usedQuota)%Qc in
            let rq := Axios.mkRequest url []
                        (getDefaultHeaders (config (oneapi_base this)))
                        (Axios.default_timeout (client (oneapi_base this))) in
            ret (UsageData.make "oneapi" 0%Qc 0%Qc 0%Qc usedQuota "USD"
                   (or_zero (request_count x rq))
                   (Some (QuotaInfo.make totalQuota usedQuota quota "dollars"))
                   (UsagePeriod.make startOfMonth now "all_time") now None)
        end
    end.

(** *** [OpenRouterProvider] *)

Definition new_OpenRouterProvider (config : ProviderConfig.t) : BaseProvider :=
  new_BaseProvider "openrouter" config.

Definition OpenRouterProvider_isConfigured (this : BaseProvider) : bool :=
  truthy (ProviderConfig.apiKey (config this))
  && Nat.ltb 0 (String.length (ProviderConfig.apiKey (config this))).

Definition OpenRouterProvider_fetchUsage (x : Reads) (this : BaseProvider)
  : Async UsageData.t :=
  if negb (OpenRouterProvider_isConfigured this) then
    ret (createEmptyUsageData x this (Some "API key not configured"))
  else
    let now := now x in
    let startOfMonth := JsDate.of_ymd (JsDate.getFullYear now) (JsDate.getMonth now) 1 in
    let* reply := get_or_error x this "https://openrouter.ai/api/v1/auth/key" [] in
    match reply with
    | inl error =>
        let errorMessage :=
          or_string (AxiosError.response_data_error_message error)
            (or_string (AxiosError.message error) "Failed to fetch usage") in
        ret (createEmptyUsageData x this (Some errorMessage))
    | inr response =>
        match opt_chain (Axios.data response) Json.data with
        | None =>
            ret (createEmptyUsageData x this (Some "Invalid response from OpenRouter"))
        | Some data =>
            let usage := or_zero (Json.usage data) in
            let limit := or_zero (Json.limit data) in
            ret (UsageData.make "openrouter" 0%Qc 0%Qc 0%Qc usage "USD" 0%Qc
                   (if gtb limit 0%Qc
                    then Some (QuotaInfo.make limit usage (limit - usage)%Qc "dollars")
                    else None)
                   (UsagePeriod.make startOfMonth now "monthly") now None)
        end
    end.

(** *** [CCAPIProvider] *)

Record CCAPIProvider : Type := mkCCAPIProvider {
  ccapi_base : BaseProvider;
  ccapi_baseUrl : string
}.

Definition new_CCAPIProvider (config : ProviderConfig.t) : CCAPIProvider :=
  mkCCAPIProvider (new_BaseProvider "ccapi" config)
    (replace_trailing_slash (or_string (ProviderConfig.endpoint config) "")).

Definition CCAPIProvider_isConfigured (this : CCAPIProvider) : bool :=
  truthy (ProviderConfig.apiKey (config (ccapi_base this)))
  && Nat.ltb 0 (String.length (ProviderConfig.apiKey (config (ccapi_base this))))
  && truthy (ccapi_baseUrl this).

(** [CCAPIProvider.fetchUsage].  The inner [try] swallows a rejected
    subscription request; the outer [catch] is the [inl] branch of the usage
    request.  The two date strings are those of the world. *)
Definition CCAPIProvider_fetchUsage (x : Reads) (this : CCAPIProvider)
  : Async UsageData.t :=
  if negb (CCAPIProvider_isConfigured this) then
    ret (createEmptyUsageData x (ccapi_base this)
           (Some "API key or endpoint not configured"))
  else
    let now := now x in
    let startOfYear := JsDate.of_ymd (JsDate.getFullYear now) 0 1 in
    let* subReply :=
      get_or_error x (ccapi_base this)
        (ccapi_baseUrl this ++ "/v1/dashboard/billing/subscription") [] in
    let hardLimit :=
      match subReply with
      | inl _ => 0%Qc
      | inr subResponse =>
          or_zero (opt_chain (Axios.data subResponse) Json.hard_limit_usd)
      end in
    let* world := ask in
    let startDate := yearStart world in
    let endDate := todayStart world in
    let* reply :=
      get_or_error x (ccapi_base this)
        (ccapi_baseUrl this ++ "/v1/dashboard/billing/usage")
        (usage_params startDate endDate) in
    match reply with
    | inl error =>
        let errorMessage :=
          or_string (AxiosError.response_data_message error)
            (or_string (AxiosError.message error) "Failed to fetch usage") in
        ret (createEmptyUsageData x (ccapi_base this) (Some errorMessage))
    | inr usageResponse =>
        let totalUsage :=
          or_zero (opt_chain (Axios.data usageResponse) Json.total_usage) in
        ret (UsageData.make "ccapi" 0%Qc 0%Qc 0%Qc totalUsage "USD" 0%Qc
               (if gtb hardLimit 0%Qc
                then Some (QuotaInfo.make hardLimit totalUsage
                             (hardLimit - totalUsage)%Qc "dollars")
                else None)
               (UsagePeriod.make startOfYear now "all_time") now None)
    end.

End Legacy.

(** The provider [UniversalProvider] makes from the key and the endpoint of a
    [ProviderConfig]. *)
Definition universal_of (config : ProviderConfig.t) : UniversalProvider :=
  new_UniversalProvider (ProviderConfig.apiKey config)
    (Legacy.or_string (ProviderConfig.endpoint config) "").

Definition example_config : ProviderConfig.t :=
  ProviderConfig.make "sk-test" None (Some "https://api.example.com") None None true.

Definition example_reads_legacy : Legacy.Reads :=
  Legacy.mkReads
    (fun _ => AxiosError.make None None (Some "Request failed with status code 404"))
    (fun _ => None)
    (JsDate.make 2024 4 17 43200000).

Definition router_config : ProviderConfig.t :=
  ProviderConfig.make "sk-or-test" None (Some "https://openrouter.ai/api/v1") None None
    true.

Definition unconfigured_config : ProviderConfig.t :=
  ProviderConfig.make "" None None None None true.

(** ** The cost estimates of [OpenAIProvider] and [AnthropicProvider]

    The prices 0.01 and 0.03 are the fractions 1/100 and 3/100. *)

Definition OpenAIProvider_estimateCost (promptTokens completionTokens : Qc) : Qc :=
  let inputCost := (promptTokens / Q2Qc 1000 * Q2Qc (1 # 100))%Qc in
  let outputCost := (completionTokens / Q2Qc 1000 * Q2Qc (3 # 100))%Qc in
  (inputCost + outputCost)%Qc.

Definition AnthropicProvider_estimateCost (inputTokens outputTokens : Qc) : Qc :=
  let inputCost := (inputTokens / Q2Qc 1000000 * Q2Qc 3)%Qc in
  let outputCost := (outputTokens / Q2Qc 1000000 * Q2Qc 15)%Qc in
  (inputCost + outputCost)%Qc.

(** ** Basic facts on the helpers *)

Lemma truthy_true_iff (s : string) : truthy s = true <-> s <> "".
Proof.
  unfold truthy. rewrite negb_true_iff. split.
  - intros H E. subst s. discriminate H.
  - intros H. apply String.eqb_neq. exact H.
Qed.

Lemma truthy_false_iff (s : string) : truthy s = false <-> s = "".
Proof.
  unfold truthy. rewrite negb_false_iff. apply String.eqb_eq.
Qed.

Lemma or_zero_Some (q : Qc) : or_zero (Some q) = q.
Proof.
  unfold or_zero. destruct (Qeq_bool q 0) eqn:E; [|reflexivity].
  apply Qeq_bool_eq in E. symmetry. apply Qc_is_canon. exact E.
Qed.

Lemma or_zero_None : or_zero None = 0%Qc.
Proof. reflexivity. Qed.

Lemma geb_true_iff (a b : Qc) : geb a b = true <-> (b <= a)%Qc.
Proof. unfold geb, Qcle. apply Qle_bool_iff. Qed.

Lemma geb_false_iff (a b : Qc) : geb a b = false <-> (a < b)%Qc.
Proof.
  unfold geb, Qclt. rewrite <- not_true_iff_false, Qle_bool_iff. split.
  - apply Qnot_le_lt.
  - apply Qlt_not_le.
Qed.

Lemma gtb_true_iff (a b : Qc) : gtb a b = true <-> (b < a)%Qc.
Proof.
  unfold gtb, Qclt. rewrite negb_true_iff, <- not_true_iff_false, Qle_bool_iff. split.
  - apply Qnot_le_lt.
  - apply Qlt_not_le.
Qed.

Lemma replace_trailing_slash_app (e : string) :
  replace_trailing_slash (e ++ "/") = e.
Proof.
  induction e as [|c e IH]; [reflexivity|].
  change (String c e ++ "/") with (String c (e ++ "/")).
  cbn [replace_trailing_slash]. rewrite IH.
  destruct e; reflexivity.
Qed.

Lemma replace_trailing_slash_id (e : string) :
  ends_with_char e "/" = false -> replace_trailing_slash e = e.
Proof.
  induction e as [|c e IH]; [reflexivity|].
  cbn [ends_with_char replace_trailing_slash].
  destruct e as [|d e].
  - intros ->. reflexivity.
  - intros H. rewrite (IH H). reflexivity.
Qed.

(** Removing the trailing slash does not change which slash-free strings
    occur in a string. *)
Lemma prefix_replace_trailing_slash (sub s : string) :
  has_char sub "/" = false ->
  String.prefix sub (replace_trailing_slash s) = String.prefix sub s.
Proof.
  revert s. induction sub as [|a sub IH]; intros s H.
  - destruct s; [reflexivity|]. cbn [replace_trailing_slash].
    destruct s; [destruct (Ascii.eqb _ _)|]; reflexivity.
  - cbn [has_char] in H. apply orb_false_iff in H. destruct H as [Ha Hsub].
    destruct s as [|c rest]; [reflexivity|].
    cbn [replace_trailing_slash]. destruct rest as [|d rest].
    + destruct (Ascii.eqb c "/") eqn:Ec; [|reflexivity].
      apply Ascii.eqb_eq in Ec. subst c. cbn [String.prefix].
      destruct (ascii_dec a "/") as [->|_]; [|reflexivity].
      rewrite Ascii.eqb_refl in Ha. discriminate Ha.
    + cbn [String.prefix]. destruct (ascii_dec a c); [|reflexivity].
      apply IH. exact Hsub.
Qed.

Lemma includes_replace_trailing_slash (sub s : string) :
  has_char sub "/" = false ->
  includes (replace_trailing_slash s) sub = includes s sub.
Proof.
  intros H. induction s as [|c rest IH]; [reflexivity|].
  pose proof (prefix_replace_trailing_slash sub (String c rest) H) as P.
  cbn [includes]. rewrite <- P.
  cbn [replace_trailing_slash] in *. destruct rest as [|d rest].
  - destruct (Ascii.eqb c "/").
    + cbn [includes]. destruct (String.prefix sub ""); reflexivity.
    + reflexivity.
  - cbn [includes]. rewrite IH. reflexivity.
Qed.

(** ** The monad: how a started request runs *)

Lemma run_get {B : Type} (this : UniversalProvider) (url : string)
    (params : list (string * string)) (k : Settled Axios.Response -> Async B)
    (w : World) (log : list Axios.Request) :
  bind (get (client this) url params) k w log
  = k (respond w (request_of this url params)) w (log ++ [request_of this url params])%list.
Proof. reflexivity. Qed.

(** ** The loop of [fetchUsage], one detector at a time *)

Lemma for_detectors_cons (detector : Async (option UsageResult))
    (rest : list (Async (option UsageResult))) (w : World) (log : list Axios.Request) :
  for_detectors (detector :: rest) w log =
    match detector w log with
    | (Return result, log') =>
        match accepted result with
        | Some r => (Return r, log')
        | None => for_detectors rest w log'
        end
    | (Throw, log') => for_detectors rest w log'
    end.
Proof.
  cbn [for_detectors]. unfold bind, try_catch, ret.
  destruct (detector w log) as [[|result] log']; [reflexivity|].
  destruct (accepted result); reflexivity.
Qed.

Lemma fetchUsage_not_configured (this : UniversalProvider) (w : World)
    (log : list Axios.Request) :
  apiKey this = "" \/ endpoint this = "" ->
  fetchUsage this w log = (Return (unknown "API Key or Endpoint not configured"), log).
Proof.
  intros H. unfold fetchUsage.
  replace (negb (truthy (apiKey this)) || negb (truthy (endpoint this))) with true.
  - reflexivity.
  - symmetry. apply orb_true_iff.
    destruct H as [H|H]; [left|right]; rewrite H; reflexivity.
Qed.

Lemma fetchUsage_configured (this : UniversalProvider) (w : World)
    (log : list Axios.Request) :
  truthy (apiKey this) = true -> truthy (endpoint this) = true ->
  fetchUsage this w log =
    for_detectors [tryNewAPIBilling this; tryOneAPI this; tryOpenRouter this] w log.
Proof.
  intros Hk He. unfold fetchUsage. rewrite Hk, He. reflexivity.
Qed.

(** ** Format B, case by case *)

Section OneAPI.

Variables (this : UniversalProvider) (w : World) (log : list Axios.Request).

Lemma tryOneAPI_rejected :
  respond w (self_request this) = Rejected ->
  tryOneAPI this w log = (Return None, (log ++ [self_request this])%list).
Proof.
  intros H. unfold tryOneAPI, try_catch. rewrite run_get.
  fold (self_request this). rewrite H. reflexivity.
Qed.

Lemma tryOneAPI_no_data (response : Axios.Response) :
  respond w (self_request this) = Fulfilled response ->
  opt_chain (Axios.data response) Json.data = None ->
  tryOneAPI this w log = (Return None, (log ++ [self_request this])%list).
Proof.
  intros H E. unfold tryOneAPI, try_catch. rewrite run_get.
  fold (self_request this). rewrite H. cbn [await]. unfold bind, ret.
  rewrite E. reflexivity.
Qed.

Lemma tryOneAPI_data (response : Axios.Response) (data : Json.Inner) :
  respond w (self_request this) = Fulfilled response ->
  opt_chain (Axios.data response) Json.data = Some data ->
  tryOneAPI this w log =
    (Return (Some {| todayUsed := 0%Qc;
                     monthUsed := 0%Qc;
                     totalUsed := (or_zero (Json.used_quota data) / Q2Qc 500000)%Qc;
                     total := (or_zero (Json.quota data) / Q2Qc 500000
                               + or_zero (Json.used_quota data) / Q2Qc 500000)%Qc;
                     remaining := (or_zero (Json.quota data) / Q2Qc 500000)%Qc;
                     type := "OneAPI";
                     error := None |}),
     (log ++ [self_request this])%list).
Proof.
  intros H E. unfold tryOneAPI, try_catch. rewrite run_get.
  fold (self_request this). rewrite H. cbn [await]. unfold bind, ret.
  rewrite E. reflexivity.
Qed.

End OneAPI.

(** ** Format C, case by case *)

Section OpenRouter.

Variables (this : UniversalProvider) (w : World) (log : list Axios.Request).

Lemma tryOpenRouter_other_host :
  includes (endpoint this) "openrouter.ai" = false ->
  tryOpenRouter this w log = (Return None, log).
Proof.
  intros H. unfold tryOpenRouter. rewrite H. reflexivity.
Qed.

Hypothesis host : includes (endpoint this) "openrouter.ai" = true.

Lemma tryOpenRouter_rejected :
  respond w (key_request this) = Rejected ->
  tryOpenRouter this w log = (Return None, (log ++ [key_request this])%list).
Proof.
  intros H. unfold tryOpenRouter. rewrite host. cbn [negb].
  unfold try_catch. rewrite run_get. fold (key_request this).
  rewrite H. reflexivity.
Qed.

Lemma tryOpenRouter_no_data (response : Axios.Response) :
  respond w (key_request this) = Fulfilled response ->
  opt_chain (Axios.data response) Json.data = None ->
  tryOpenRouter this w log = (Return None, (log ++ [key_request this])%list).
Proof.
  intros H E. unfold tryOpenRouter. rewrite host. cbn [negb].
  unfold try_catch. rewrite run_get. fold (key_request this).
  rewrite H. cbn [await]. unfold bind, ret. rewrite E. reflexivity.
Qed.

Lemma tryOpenRouter_data (response : Axios.Response) (data : Json.Inner) :
  respond w (key_request this) = Fulfilled response ->
  opt_chain (Axios.data response) Json.data = Some data ->
  tryOpenRouter this w log =
    (Return (Some {| todayUsed := 0%Qc;
                     monthUsed := 0%Qc;
                     totalUsed := or_zero (Json.usage data);
                     total := or_zero (Json.limit data);
                     remaining :=
                       if gtb (or_zero (Json.limit data)) 0%Qc
                       then (or_zero (Json.limit data) - or_zero (Json.usage data))%Qc
                       else 0%Qc;
                     type := "OpenRouter";
                     error := None |}),
     (log ++ [key_request this])%list).
Proof.
  intros H E. unfold tryOpenRouter. rewrite host. cbn [negb].
  unfold try_catch. rewrite run_get. fold (key_request this).
  rewrite H. cbn [await]. unfold bind, ret. rewrite E. reflexivity.
Qed.

End OpenRouter.

(** ** Format A, case by case *)

Section NewAPI.

Variables (this : UniversalProvider) (w : World) (log : list Axios.Request).

Lemma tryNewAPIBilling_rejected :
  respond w (subscription_request this) = Rejected ->
  tryNewAPIBilling this w log =
    (Return None, (log ++ [subscription_request this])%list).
Proof.
  intros H. unfold tryNewAPIBilling, try_catch. rewrite run_get.
  fold (subscription_request this). rewrite H. reflexivity.
Qed.

Lemma tryNewAPIBilling_no_data (response : Axios.Response) :
  respond w (subscription_request this) = Fulfilled response ->
  Axios.data response = None ->
  tryNewAPIBilling this w log =
    (Return None, (log ++ [subscription_request this])%list).
Proof.
  intros H E. unfold tryNewAPIBilling, try_catch. rewrite run_get.
  fold (subscription_request this). rewrite H. cbn [await]. unfold bind, ret.
  rewrite E. reflexivity.
Qed.

Lemma tryNewAPIBilling_error (response : Axios.Response) (sub : Json.Body) :
  respond w (subscription_request this) = Fulfilled response ->
  Axios.data response = Some sub ->
  Json.error sub = true ->
  tryNewAPIBilling this w log =
    (Return None, (log ++ [subscription_request this])%list).
Proof.
  intros H E1 E2. unfold tryNewAPIBilling, try_catch. rewrite run_get.
  fold (subscription_request this). rewrite H. cbn [await]. unfold bind, ret.
  rewrite E1, E2. reflexivity.
Qed.

(** Once the subscription is read, the three usage requests are started
    whatever their fate, and the probe hangs on [Promise.all]. *)
Lemma tryNewAPIBilling_usage (response : Axios.Response) (sub : Json.Body) :
  respond w (subscription_request this) = Fulfilled response ->
  Axios.data response = Some sub ->
  Json.error sub = false ->
  tryNewAPIBilling this w log =
    (Return
       match Promise_all
               [respond w (usage_request this (todayStart w) (todayStart w));
                respond w (usage_request this (monthStart w) (todayStart w));
                respond w (usage_request this (yearStart w) (todayStart w))] with
       | Fulfilled [todayResponse; monthResponse; totalResponse] =>
           let hardLimitUsd := or_zero (Json.hard_limit_usd sub) in
           let totalUsed :=
             (or_zero (opt_chain (Axios.data totalResponse) Json.total_usage)
              / Q2Qc 100)%Qc in
           Some {| todayUsed :=
                     (or_zero (opt_chain (Axios.data todayResponse) Json.total_usage)
                      / Q2Qc 100)%Qc;
                   monthUsed :=
                     (or_zero (opt_chain (Axios.data monthResponse) Json.total_usage)
                      / Q2Qc 100)%Qc;
                   totalUsed := totalUsed;
                   total := if geb hardLimitUsd (Q2Qc 1000000) then 0%Qc
                            else hardLimitUsd;
                   remaining := if geb hardLimitUsd (Q2Qc 1000000) then 0%Qc
                                else (hardLimitUsd - totalUsed)%Qc;
                   type := "NewAPI";
                   error := None |}
       | _ => None
       end,
     (log ++ newapi_requests this w)%list).
Proof.
  intros H E1 E2. unfold tryNewAPIBilling, try_catch. rewrite run_get.
  fold (subscription_request this). rewrite H. cbn [await]. unfold bind at 1, ret at 1.
  rewrite E1, E2. unfold bind at 1, ask. rewrite !run_get.
  fold (usage_request this (todayStart w) (todayStart w)).
  fold (usage_request this (monthStart w) (todayStart w)).
  fold (usage_request this (yearStart w) (todayStart w)).
  unfold newapi_requests.
  rewrite <- !app_assoc. cbn [app].
  destruct (respond w (usage_request this (todayStart w) (todayStart w))) as [|r1];
    [reflexivity|].
  destruct (respond w (usage_request this (monthStart w) (todayStart w))) as [|r2];
    [reflexivity|].
  destruct (respond w (usage_request this (yearStart w) (todayStart w))) as [|r3];
    reflexivity.
Qed.

End NewAPI.

(** ** What every probe does *)

Lemma tryOneAPI_log (this : UniversalProvider) (w : World) (log : list Axios.Request) :
  exists result,
    tryOneAPI this w log = (Return result, (log ++ [self_request this])%list)
    /\ forall r, result = Some r -> error r = None.
Proof.
  destruct (respond w (self_request this)) as [|response] eqn:H.
  - pose proof (tryOneAPI_rejected this w log H) as R.
    eexists; split; [exact R | discriminate].
  - destruct (opt_chain (Axios.data response) Json.data) as [data|] eqn:E.
    + pose proof (tryOneAPI_data this w log response data H E) as R.
      eexists; split; [exact R | intros r Er; injection Er as <-; reflexivity].
    + pose proof (tryOneAPI_no_data this w log response H E) as R.
      eexists; split; [exact R | discriminate].
Qed.

Lemma tryOneAPI_probe_like (this : UniversalProvider) : probe_like (tryOneAPI this).
Proof.
  intros w log. destruct (tryOneAPI_log this w log) as [result [R Herr]].
  exists result, [self_request this]. split; assumption.
Qed.

Lemma tryOpenRouter_log (this : UniversalProvider) (w : World)
    (log : list Axios.Request) :
  includes (endpoint this) "openrouter.ai" = true ->
  exists result,
    tryOpenRouter this w log = (Return result, (log ++ [key_request this])%list)
    /\ forall r, result = Some r -> error r = None.
Proof.
  intros host.
  destruct (respond w (key_request this)) as [|response] eqn:H.
  - pose proof (tryOpenRouter_rejected this w log host H) as R.
    eexists; split; [exact R | discriminate].
  - destruct (opt_chain (Axios.data response) Json.data) as [data|] eqn:E.
    + pose proof (tryOpenRouter_data this w log host response data H E) as R.
      eexists; split; [exact R | intros r Er; injection Er as <-; reflexivity].
    + pose proof (tryOpenRouter_no_data this w log host response H E) as R.
      eexists; split; [exact R | discriminate].
Qed.

Lemma tryOpenRouter_probe_like (this : UniversalProvider) :
  probe_like (tryOpenRouter this).
Proof.
  intros w log.
  destruct (includes (endpoint this) "openrouter.ai") eqn:host.
  - destruct (tryOpenRouter_log this w log host) as [result [R Herr]].
    exists result, [key_request this]. split; assumption.
  - exists None, []. rewrite app_nil_r. split.
    + apply tryOpenRouter_other_host. exact host.
    + discriminate.
Qed.

Lemma tryNewAPIBilling_probe_like (this : UniversalProvider) :
  probe_like (tryNewAPIBilling this).
Proof.
  intros w log.
  destruct (respond w (subscription_request this)) as [|response] eqn:H.
  - pose proof (tryNewAPIBilling_rejected this w log H) as R.
    probe_done [subscription_request this].
  - destruct (Axios.data response) as [sub|] eqn:E1.
    + destruct (Json.error sub) eqn:E2.
      * pose proof (tryNewAPIBilling_error this w log response sub H E1 E2) as R.
        probe_done [subscription_request this].
      * pose proof (tryNewAPIBilling_usage this w log response sub H E1 E2) as R.
        eexists; exists (newapi_requests this w); split; [exact R|].
        intros r Er.
        destruct (Promise_all _) as [|[|r1 [|r2 [|r3 [|r4 l]]]]];
          try discriminate Er.
        injection Er as <-. reflexivity.
    + pose proof (tryNewAPIBilling_no_data this w log response H E1) as R.
      probe_done [subscription_request this].
Qed.

Lemma accepted_error_free (result : option UsageResult) :
  (forall r, result = Some r -> error r = None) -> accepted result = result.
Proof.
  intros H. destruct result as [r|]; [|reflexivity].
  cbn [accepted]. rewrite (H r eq_refl). reflexivity.
Qed.

(** One turn of the loop on a probe: its record is returned, or the loop goes
    on from the log the probe left. *)
Lemma for_detectors_probe (detector : Async (option UsageResult))
    (rest : list (Async (option UsageResult))) (w : World) (log : list Axios.Request) :
  probe_like detector ->
  exists result log',
    detector w log = (Return result, log')
    /\ (forall r, result = Some r -> error r = None)
    /\ for_detectors (detector :: rest) w log =
         match result with
         | Some r => (Return r, log')
         | None => for_detectors rest w log'
         end.
Proof.
  intros P. destruct (P w log) as [result [requests [R Herr]]].
  exists result, (log ++ requests)%list. repeat split; try assumption.
  rewrite for_detectors_cons, R, (accepted_error_free result Herr).
  destruct result; reflexivity.
Qed.

(** A detector that gives nothing, by [null] or by throwing, is skipped. *)
Lemma for_detectors_skip (detector : Async (option UsageResult))
    (rest : list (Async (option UsageResult))) (w : World) (log : list Axios.Request) :
  fst (detector w log) = Throw \/ fst (detector w log) = Return None ->
  for_detectors (detector :: rest) w log = for_detectors rest w (snd (detector w log)).
Proof.
  rewrite for_detectors_cons.
  destruct (detector w log) as [[|[r|]] log']; cbn [fst snd];
    intros [H|H]; try discriminate H; reflexivity.
Qed.

(** ** Missing configuration *)

(** C2. When the API key or the endpoint handed to the constructor is the
    empty string, [fetchUsage] returns at once: the log of requests is left as
    it was, every numeric field of the record is 0, its type is ['unknown'] and
    its error is ['API Key or Endpoint not configured']. *)
Theorem fetchUsage_config_missing (key base : string) (w : World)
    (log : list Axios.Request) :
  key = "" \/ base = "" ->
  fetchUsage (new_UniversalProvider key base) w log =
    (Return {| todayUsed := 0%Qc;
               monthUsed := 0%Qc;
               totalUsed := 0%Qc;
               total := 0%Qc;
               remaining := 0%Qc;
               type := "unknown";
               error := Some "API Key or Endpoint not configured" |},
     log).
Proof.
  intros H.
  apply (fetchUsage_not_configured (new_UniversalProvider key base)).
  destruct H as [-> | ->]; [left | right]; reflexivity.
Qed.

Lemma fetchUsage_config_missing_witness :
  fetchUsage (new_UniversalProvider "" "https://api.example.com") newapi_world [] =
    (Return {| todayUsed := 0%Qc;
               monthUsed := 0%Qc;
               totalUsed := 0%Qc;
               total := 0%Qc;
               remaining := 0%Qc;
               type := "unknown";
               error := Some "API Key or Endpoint not configured" |},
     []).
Proof.
  apply (fetchUsage_config_missing "" "https://api.example.com").
  left. reflexivity.
Defined.

(** ** The host gate of Format C *)

(** C7. When the configured endpoint does not contain ['openrouter.ai'] (the
    constructor's removal of a trailing slash does not change that), the
    Format C probe gives [null] and starts no request: the log is unchanged.
    When it does, the probe starts exactly one request, to
    [https://openrouter.ai/api/v1/auth/key]. *)
Theorem tryOpenRouter_host_gate (key base : string) (w : World)
    (log : list Axios.Request) :
  (includes base "openrouter.ai" = false ->
   tryOpenRouter (new_UniversalProvider key base) w log = (Return None, log))
  /\ (includes base "openrouter.ai" = true ->
      exists result request,
        tryOpenRouter (new_UniversalProvider key base) w log =
          (Return result, (log ++ [request])%list)
        /\ Axios.url request = "https://openrouter.ai/api/v1/auth/key").
Proof.
  assert (E : includes (endpoint (new_UniversalProvider key base)) "openrouter.ai"
              = includes base "openrouter.ai").
  { apply includes_replace_trailing_slash. reflexivity. }
  split.
  - intros H. apply tryOpenRouter_other_host. rewrite E. exact H.
  - intros host. rewrite <- E in host.
    destruct (tryOpenRouter_log _ w log host) as [result [R _]].
    exists result, (key_request (new_UniversalProvider key base)).
    split; [exact R | reflexivity].
Qed.

Lemma tryOpenRouter_host_gate_witness :
  tryOpenRouter (new_UniversalProvider "sk-test" "https://api.example.com/")
    dead_world [] = (Return None, [])
  /\ exists result request,
       tryOpenRouter (new_UniversalProvider "sk-or-test" "https://openrouter.ai/api/v1/")
         dead_world [] = (Return result, ([] ++ [request])%list)
       /\ Axios.url request = "https://openrouter.ai/api/v1/auth/key".
Proof.
  split.
  - apply (tryOpenRouter_host_gate "sk-test" "https://api.example.com/" dead_world []).
    reflexivity.
  - apply (tryOpenRouter_host_gate "sk-or-test" "https://openrouter.ai/api/v1/"
             dead_world []).
    reflexivity.
Defined.

(** ** The trailing slash *)

(** C10. The constructor removes one trailing ['/'] from the endpoint: the
    provider made from [e + '/'] has endpoint [e].  When [e] does not end in
    ['/'], the providers made from [e + '/'] and from [e] are the same, so
    [fetchUsage] gives the same result and the same requests on both; and the
    endpoint ['/'] alone is not configured. *)
Theorem constructor_trailing_slash (key e : string) :
  ends_with_char e "/" = false ->
  endpoint (new_UniversalProvider key (e ++ "/")) = e
  /\ new_UniversalProvider key (e ++ "/") = new_UniversalProvider key e
  /\ (forall w log,
        fetchUsage (new_UniversalProvider key (e ++ "/")) w log =
        fetchUsage (new_UniversalProvider key e) w log)
  /\ (forall w log,
        fetchUsage (new_UniversalProvider key "/") w log =
        (Return (unknown "API Key or Endpoint not configured"), log)).
Proof.
  intros H.
  assert (Same : new_UniversalProvider key (e ++ "/") = new_UniversalProvider key e).
  { unfold new_UniversalProvider.
    rewrite replace_trailing_slash_app, (replace_trailing_slash_id e H). reflexivity. }
  split; [|split; [|split]].
  - apply replace_trailing_slash_app.
  - exact Same.
  - intros w log. rewrite Same. reflexivity.
  - intros w log. apply fetchUsage_not_configured. right. reflexivity.
Qed.

Lemma constructor_trailing_slash_witness :
  endpoint (new_UniversalProvider "sk-test" ("https://api.example.com" ++ "/"))
  = "https://api.example.com"
  /\ new_UniversalProvider "sk-test" ("https://api.example.com" ++ "/")
     = new_UniversalProvider "sk-test" "https://api.example.com"
  /\ (forall w log,
        fetchUsage (new_UniversalProvider "sk-test" ("https://api.example.com" ++ "/")) w log =
        fetchUsage (new_UniversalProvider "sk-test" "https://api.example.com") w log)
  /\ (forall w log,
        fetchUsage (new_UniversalProvider "sk-test" "/") w log =
        (Return (unknown "API Key or Endpoint not configured"), log)).
Proof.
  apply (constructor_trailing_slash "sk-test" "https://api.example.com").
  reflexivity.
Defined.

(** ** Format A: cents, dollars and the unlimited mark *)

(** C3. When the subscription answers with [hard_limit_usd = H] (and no
    [error]) and the usage windows of today, of the month and of the year
    answer with [total_usage] [t], [m] and [y], the Format A probe gives a
    record with [todayUsed = t/100], [monthUsed = m/100], [totalUsed = y/100]
    and type ['NewAPI']; if [H >= 1000000] then [total = 0] and
    [remaining = 0], otherwise [total = H] and [remaining = H - totalUsed]. *)
Theorem tryNewAPIBilling_record (this : UniversalProvider) (w : World)
    (log : list Axios.Request) (H t m y : Qc)
    (sub today month year : Json.Body) :
  respond w (subscription_request this) = fulfilled_with sub ->
  Json.error sub = false ->
  Json.hard_limit_usd sub = Some H ->
  respond w (usage_request this (todayStart w) (todayStart w)) = fulfilled_with today ->
  Json.total_usage today = Some t ->
  respond w (usage_request this (monthStart w) (todayStart w)) = fulfilled_with month ->
  Json.total_usage month = Some m ->
  respond w (usage_request this (yearStart w) (todayStart w)) = fulfilled_with year ->
  Json.total_usage year = Some y ->
  exists r,
    tryNewAPIBilling this w log = (Return (Some r), (log ++ newapi_requests this w)%list)
    /\ todayUsed r = (t / Q2Qc 100)%Qc
    /\ monthUsed r = (m / Q2Qc 100)%Qc
    /\ totalUsed r = (y / Q2Qc 100)%Qc
    /\ ((Q2Qc 1000000 <= H)%Qc -> total r = 0%Qc /\ remaining r = 0%Qc)
    /\ ((H < Q2Qc 1000000)%Qc -> total r = H /\ remaining r = (H - totalUsed r)%Qc)
    /\ type r = "NewAPI"
    /\ error r = None.
Proof.
  intros Hs He Hh Ht Et Hm Em Hy Ey.
  pose proof (tryNewAPIBilling_usage this w log _ sub Hs eq_refl He) as R.
  rewrite Ht, Hm, Hy in R. cbn in R.
  rewrite Hh, Et, Em, Ey, !or_zero_Some in R.
  eexists. split; [exact R|]. cbn.
  split; [reflexivity|]. split; [reflexivity|]. split; [reflexivity|].
  split; [|split; [|split; reflexivity]].
  - intros Hcmp. apply geb_true_iff in Hcmp. rewrite Hcmp. split; reflexivity.
  - intros Hcmp. apply geb_false_iff in Hcmp. rewrite Hcmp. split; reflexivity.
Qed.

(** ** Format B: quota units *)

(** C4. When the body of [/api/user/self] carries under [data] the numbers
    [quota = q] and [used_quota = u], the Format B probe gives a record with
    [totalUsed = u/500000], [remaining = q/500000],
    [total = q/500000 + u/500000], [todayUsed = 0], [monthUsed = 0] and type
    ['OneAPI']. *)
Theorem tryOneAPI_record (this : UniversalProvider) (w : World)
    (log : list Axios.Request) (q u : Qc) (body : Json.Body) (data : Json.Inner) :
  respond w (self_request this) = fulfilled_with body ->
  Json.data body = Some data ->
  Json.quota data = Some q ->
  Json.used_quota data = Some u ->
  tryOneAPI this w log =
    (Return (Some {| todayUsed := 0%Qc;
                     monthUsed := 0%Qc;
                     totalUsed := (u / Q2Qc 500000)%Qc;
                     total := (q / Q2Qc 500000 + u / Q2Qc 500000)%Qc;
                     remaining := (q / Q2Qc 500000)%Qc;
                     type := "OneAPI";
                     error := None |}),
     (log ++ [self_request this])%list).
Proof.
  intros Hr Hd Hq Hu.
  rewrite (tryOneAPI_data this w log _ data Hr Hd).
  rewrite Hq, Hu, !or_zero_Some. reflexivity.
Qed.

Lemma tryNewAPIBilling_record_witness :
  exists r,
    tryNewAPIBilling example_provider newapi_world [] =
      (Return (Some r), ([] ++ newapi_requests example_provider newapi_world)%list)
    /\ todayUsed r = (Q2Qc 250 / Q2Qc 100)%Qc
    /\ monthUsed r = (Q2Qc 4000 / Q2Qc 100)%Qc
    /\ totalUsed r = (Q2Qc 4500 / Q2Qc 100)%Qc
    /\ ((Q2Qc 1000000 <= Q2Qc 50)%Qc -> total r = 0%Qc /\ remaining r = 0%Qc)
    /\ ((Q2Qc 50 < Q2Qc 1000000)%Qc ->
        total r = Q2Qc 50 /\ remaining r = (Q2Qc 50 - totalUsed r)%Qc)
    /\ type r = "NewAPI"
    /\ error r = None.
Proof.
  apply (tryNewAPIBilling_record example_provider newapi_world []
           (Q2Qc 50) (Q2Qc 250) (Q2Qc 4000) (Q2Qc 4500)
           (subscription_body (Some (Q2Qc 50)))
           (usage_body (Q2Qc 250)) (usage_body (Q2Qc 4000)) (usage_body (Q2Qc 4500)));
    reflexivity.
Defined.

Lemma tryOneAPI_record_witness :
  tryOneAPI example_provider oneapi_world [] =
    (Return (Some {| todayUsed := 0%Qc;
                     monthUsed := 0%Qc;
                     totalUsed := (Q2Qc 500000 / Q2Qc 500000)%Qc;
                     total := (Q2Qc 2500000 / Q2Qc 500000 + Q2Qc 500000 / Q2Qc 500000)%Qc;
                     remaining := (Q2Qc 2500000 / Q2Qc 500000)%Qc;
                     type := "OneAPI";
                     error := None |}),
     ([] ++ [self_request example_provider])%list).
Proof.
  apply (tryOneAPI_record example_provider oneapi_world []
           (Q2Qc 2500000) (Q2Qc 500000)
           (Json.mkBody false None None
              (Some (Json.mkInner (Some (Q2Qc 2500000)) (Some (Q2Qc 500000)) None None)))
           (Json.mkInner (Some (Q2Qc 2500000)) (Some (Q2Qc 500000)) None None));
    reflexivity.
Defined.

(** ** Format B: absent fields *)

Lemma or_zero_falsy (v : option Qc) : falsy_number v -> or_zero v = 0%Qc.
Proof. intros [-> | ->]; reflexivity. Qed.

Lemma Qcdiv_0_l (c : Qc) : (0 / c)%Qc = 0%Qc.
Proof. unfold Qcdiv. ring. Qed.

(** C9. When the body of [/api/user/self] has a truthy [data] whose [quota] or
    [used_quota] is absent or falsy, the Format B probe still gives a record,
    of type ['OneAPI'], in which the missing field counts as 0.  The probe
    gives [null] exactly when the request is rejected or [data] is missing. *)
Theorem tryOneAPI_missing_fields (this : UniversalProvider) (w : World)
    (log : list Axios.Request) (body : Json.Body) (data : Json.Inner) :
  respond w (self_request this) = fulfilled_with body ->
  Json.data body = Some data ->
  falsy_number (Json.quota data) \/ falsy_number (Json.used_quota data) ->
  (exists r,
     tryOneAPI this w log = (Return (Some r), (log ++ [self_request this])%list)
     /\ type r = "OneAPI"
     /\ error r = None
     /\ totalUsed r = (or_zero (Json.used_quota data) / Q2Qc 500000)%Qc
     /\ remaining r = (or_zero (Json.quota data) / Q2Qc 500000)%Qc
     /\ total r = (remaining r + totalUsed r)%Qc
     /\ (falsy_number (Json.quota data) -> remaining r = 0%Qc)
     /\ (falsy_number (Json.used_quota data) -> totalUsed r = 0%Qc))
  /\ (forall w' log',
        fst (tryOneAPI this w' log') = Return None <->
        (respond w' (self_request this) = Rejected
         \/ exists response,
              respond w' (self_request this) = Fulfilled response
              /\ opt_chain (Axios.data response) Json.data = None)).
Proof.
  intros Hr Hd _. split.
  - eexists. split; [exact (tryOneAPI_data this w log _ data Hr Hd)|]. cbn.
    repeat (split; [reflexivity|]). split.
    + intros F. rewrite (or_zero_falsy _ F). apply Qcdiv_0_l.
    + intros F. rewrite (or_zero_falsy _ F). apply Qcdiv_0_l.
  - intros w' log'.
    destruct (respond w' (self_request this)) as [|response] eqn:H.
    + rewrite (tryOneAPI_rejected this w' log' H). cbn [fst].
      split; [left; reflexivity | reflexivity].
    + destruct (opt_chain (Axios.data response) Json.data) as [d|] eqn:E.
      * rewrite (tryOneAPI_data this w' log' response d H E). cbn [fst]. split.
        -- discriminate.
        -- intros [F | [response' [F1 F2]]]; [discriminate F|].
           injection F1 as <-. rewrite E in F2. discriminate F2.
      * rewrite (tryOneAPI_no_data this w' log' response H E). cbn [fst]. split.
        -- intros _. right. exists response. split; [reflexivity | exact E].
        -- reflexivity.
Qed.

Lemma tryOneAPI_missing_fields_witness :
  (exists r,
     tryOneAPI example_provider oneapi_partial_world [] =
       (Return (Some r), ([] ++ [self_request example_provider])%list)
     /\ type r = "OneAPI"
     /\ error r = None
     /\ totalUsed r = (or_zero (Some (Q2Qc 500000)) / Q2Qc 500000)%Qc
     /\ remaining r = (or_zero None / Q2Qc 500000)%Qc
     /\ total r = (remaining r + totalUsed r)%Qc
     /\ (falsy_number None -> remaining r = 0%Qc)
     /\ (falsy_number (Some (Q2Qc 500000)) -> totalUsed r = 0%Qc))
  /\ (forall w' log',
        fst (tryOneAPI example_provider w' log') = Return None <->
        (respond w' (self_request example_provider) = Rejected
         \/ exists response,
              respond w' (self_request example_provider) = Fulfilled response
              /\ opt_chain (Axios.data response) Json.data = None)).
Proof.
  apply (tryOneAPI_missing_fields example_provider oneapi_partial_world []
           (Json.mkBody false None None
              (Some (Json.mkInner None (Some (Q2Qc 500000)) None None)))
           (Json.mkInner None (Some (Q2Qc 500000)) None None)).
  - reflexivity.
  - reflexivity.
  - left. left. reflexivity.
Defined.

(** ** Format A: a usage window that fails *)

Lemma Promise_all_rejected {A : Type} (ps : list (Settled A)) :
  In Rejected ps -> Promise_all ps = Rejected.
Proof.
  induction ps as [|p ps IH]; intros H; [contradiction|].
  destruct H as [-> | H]; [reflexivity|].
  cbn [Promise_all]. destruct p; [reflexivity|]. rewrite (IH H). reflexivity.
Qed.

(** C6. When the subscription request is fulfilled and one of the three usage
    requests is rejected, the Format A probe gives [null]; if the subscription
    body was usable, all four requests had been started.  [fetchUsage] goes on
    with Format B: the request that follows those of Format A in its log is
    the one to [/api/user/self]. *)
Theorem tryNewAPIBilling_usage_rejected (this : UniversalProvider) (w : World)
    (log : list Axios.Request) (response : Axios.Response) :
  truthy (apiKey this) = true ->
  truthy (endpoint this) = true ->
  respond w (subscription_request this) = Fulfilled response ->
  respond w (usage_request this (todayStart w) (todayStart w)) = Rejected
  \/ respond w (usage_request this (monthStart w) (todayStart w)) = Rejected
  \/ respond w (usage_request this (yearStart w) (todayStart w)) = Rejected ->
  exists logA,
    tryNewAPIBilling this w log = (Return None, logA)
    /\ (forall sub, Axios.data response = Some sub -> Json.error sub = false ->
        logA = (log ++ newapi_requests this w)%list)
    /\ fetchUsage this w log =
         for_detectors [tryOneAPI this; tryOpenRouter this] w logA
    /\ exists outcome rest,
         fetchUsage this w log = (outcome, (logA ++ self_request this :: rest)%list).
Proof.
  intros Hk He Hs Hu.
  assert (A : exists logA,
             tryNewAPIBilling this w log = (Return None, logA)
             /\ (forall sub, Axios.data response = Some sub -> Json.error sub = false ->
                 logA = (log ++ newapi_requests this w)%list)).
  { destruct (Axios.data response) as [sub|] eqn:E1.
    - destruct (Json.error sub) eqn:E2.
      + eexists. split; [exact (tryNewAPIBilling_error this w log _ sub Hs E1 E2)|].
        intros sub' Esub F. injection Esub as <-. rewrite E2 in F. discriminate F.
      + eexists. split; [|reflexivity].
        rewrite (tryNewAPIBilling_usage this w log _ sub Hs E1 E2).
        rewrite Promise_all_rejected; [reflexivity|].
        cbn [In]. destruct Hu as [-> | [-> | ->]]; auto.
    - eexists. split; [exact (tryNewAPIBilling_no_data this w log _ Hs E1)|].
      discriminate. }
  destruct A as [logA [RA LA]]. exists logA.
  assert (F : fetchUsage this w log =
              for_detectors [tryOneAPI this; tryOpenRouter this] w logA).
  { rewrite (fetchUsage_configured this w log Hk He), for_detectors_cons, RA.
    reflexivity. }
  split; [exact RA|]. split; [exact LA|]. split; [exact F|].
  rewrite F, for_detectors_cons.
  destruct (tryOneAPI_log this w logA) as [resB [RB EB]].
  rewrite RB, (accepted_error_free resB EB).
  destruct resB as [r|].
  - exists (Return r), []. reflexivity.
  - rewrite for_detectors_cons.
    destruct (tryOpenRouter_probe_like this w (logA ++ [self_request this])%list)
      as [resC [requests [RC EC]]].
    rewrite RC, (accepted_error_free resC EC), <- app_assoc. cbn [app].
    destruct resC as [r|]; eexists; exists requests; reflexivity.
Qed.

Lemma tryNewAPIBilling_usage_rejected_witness :
  exists logA,
    tryNewAPIBilling example_provider month_failing_world [] = (Return None, logA)
    /\ (forall sub,
          Axios.data (Axios.mkResponse (Some (subscription_body (Some (Q2Qc 50))))) = Some sub ->
          Json.error sub = false ->
          logA = ([] ++ newapi_requests example_provider month_failing_world)%list)
    /\ fetchUsage example_provider month_failing_world [] =
         for_detectors [tryOneAPI example_provider; tryOpenRouter example_provider]
           month_failing_world logA
    /\ exists outcome rest,
         fetchUsage example_provider month_failing_world [] =
           (outcome, (logA ++ self_request example_provider :: rest)%list).
Proof.
  apply (tryNewAPIBilling_usage_rejected example_provider month_failing_world []
           (Axios.mkResponse (Some (subscription_body (Some (Q2Qc 50)))))).
  - reflexivity.
  - reflexivity.
  - reflexivity.
  - right. left. reflexivity.
Defined.

(** ** The orchestrator *)

(** C1. With a non-empty API key and endpoint, [fetchUsage] runs Format A,
    then Format B, then Format C, each from the log the previous one left.
    It returns the record of the first probe that gives one (a record without
    [error]) together with the log of that probe, so that no later probe has
    run; when none gives a record it returns the ['unknown'] record, whose
    [error] is set.  The record is one probe's, whole. *)
Theorem fetchUsage_first_match (this : UniversalProvider) (w : World)
    (log : list Axios.Request) :
  truthy (apiKey this) = true ->
  truthy (endpoint this) = true ->
  exists resultA logA,
    tryNewAPIBilling this w log = (Return resultA, logA)
    /\ match resultA with
       | Some r => error r = None /\ fetchUsage this w log = (Return r, logA)
       | None =>
           exists resultB logB,
             tryOneAPI this w logA = (Return resultB, logB)
             /\ match resultB with
                | Some r => error r = None /\ fetchUsage this w log = (Return r, logB)
                | None =>
                    exists resultC logC,
                      tryOpenRouter this w logB = (Return resultC, logC)
                      /\ match resultC with
                         | Some r =>
                             error r = None
                             /\ fetchUsage this w log = (Return r, logC)
                         | None =>
                             fetchUsage this w log =
                               (Return (unknown "Unable to detect API type"), logC)
                             /\ error (unknown "Unable to detect API type")
                                = Some "Unable to detect API type"
                         end
                end
       end.
Proof.
  intros Hk He. rewrite (fetchUsage_configured this w log Hk He).
  destruct (for_detectors_probe _ [tryOneAPI this; tryOpenRouter this] w log
              (tryNewAPIBilling_probe_like this)) as [resA [logA [RA [EA FA]]]].
  exists resA, logA. split; [exact RA|]. rewrite FA.
  destruct resA as [r|]; [split; [apply EA|]; reflexivity|].
  destruct (for_detectors_probe _ [tryOpenRouter this] w logA
              (tryOneAPI_probe_like this)) as [resB [logB [RB [EB FB]]]].
  exists resB, logB. split; [exact RB|]. rewrite FB.
  destruct resB as [r|]; [split; [apply EB|]; reflexivity|].
  destruct (for_detectors_probe _ [] w logB
              (tryOpenRouter_probe_like this)) as [resC [logC [RC [EC FC]]]].
  exists resC, logC. split; [exact RC|]. rewrite FC.
  destruct resC as [r|]; [split; [apply EC|]; reflexivity|].
  split; reflexivity.
Qed.

(** C8. With a non-empty API key and endpoint, when each of the three probes
    gives nothing (it returns [null] or throws), [fetchUsage] does not throw:
    it returns the record with every number 0, type ['unknown'] and error
    ['Unable to detect API type']. *)
Theorem fetchUsage_exhausted (this : UniversalProvider) (w : World)
    (log : list Axios.Request) :
  truthy (apiKey this) = true ->
  truthy (endpoint this) = true ->
  gives_nothing (tryNewAPIBilling this w log) ->
  gives_nothing (tryOneAPI this w (snd (tryNewAPIBilling this w log))) ->
  gives_nothing
    (tryOpenRouter this w (snd (tryOneAPI this w (snd (tryNewAPIBilling this w log))))) ->
  fetchUsage this w log =
    (Return {| todayUsed := 0%Qc;
               monthUsed := 0%Qc;
               totalUsed := 0%Qc;
               total := 0%Qc;
               remaining := 0%Qc;
               type := "unknown";
               error := Some "Unable to detect API type" |},
     snd (tryOpenRouter this w
            (snd (tryOneAPI this w (snd (tryNewAPIBilling this w log)))))).
Proof.
  intros Hk He HA HB HC.
  rewrite (fetchUsage_configured this w log Hk He).
  rewrite (for_detectors_skip _ _ w log HA).
  rewrite (for_detectors_skip _ _ w _ HB).
  rewrite (for_detectors_skip _ _ w _ HC).
  reflexivity.
Qed.

Lemma fetchUsage_first_match_witness :
  exists resultA logA,
    tryNewAPIBilling example_provider oneapi_world [] = (Return resultA, logA)
    /\ match resultA with
       | Some r =>
           error r = None /\ fetchUsage example_provider oneapi_world [] = (Return r, logA)
       | None =>
           exists resultB logB,
             tryOneAPI example_provider oneapi_world logA = (Return resultB, logB)
             /\ match resultB with
                | Some r =>
                    error r = None
                    /\ fetchUsage example_provider oneapi_world [] = (Return r, logB)
                | None =>
                    exists resultC logC,
                      tryOpenRouter example_provider oneapi_world logB
                      = (Return resultC, logC)
                      /\ match resultC with
                         | Some r =>
                             error r = None
                             /\ fetchUsage example_provider oneapi_world [] = (Return r, logC)
                         | None =>
                             fetchUsage example_provider oneapi_world [] =
                               (Return (unknown "Unable to detect API type"), logC)
                             /\ error (unknown "Unable to detect API type")
                                = Some "Unable to detect API type"
                         end
                end
       end.
Proof.
  apply (fetchUsage_first_match example_provider oneapi_world []); reflexivity.
Defined.

Lemma fetchUsage_exhausted_witness :
  fetchUsage example_provider dead_world [] =
    (Return {| todayUsed := 0%Qc;
               monthUsed := 0%Qc;
               totalUsed := 0%Qc;
               total := 0%Qc;
               remaining := 0%Qc;
               type := "unknown";
               error := Some "Unable to detect API type" |},
     snd (tryOpenRouter example_provider dead_world
            (snd (tryOneAPI example_provider dead_world
                    (snd (tryNewAPIBilling example_provider dead_world [])))))).
Proof.
  apply (fetchUsage_exhausted example_provider dead_world []).
  - reflexivity.
  - reflexivity.
  - right. reflexivity.
  - right. reflexivity.
  - right. reflexivity.
Defined.

(** ** What [remaining] is *)

Lemma tryNewAPIBilling_some (this : UniversalProvider) (w : World)
    (log log' : list Axios.Request) (r : UsageResult) :
  tryNewAPIBilling this w log = (Return (Some r), log') ->
  exists sub,
    respond w (subscription_request this) = fulfilled_with sub
    /\ Json.error sub = false
    /\ type r = "NewAPI"
    /\ error r = None
    /\ total r = (if geb (or_zero (Json.hard_limit_usd sub)) (Q2Qc 1000000)
                  then 0%Qc else or_zero (Json.hard_limit_usd sub))
    /\ remaining r = (if geb (or_zero (Json.hard_limit_usd sub)) (Q2Qc 1000000)
                      then 0%Qc
                      else (or_zero (Json.hard_limit_usd sub) - totalUsed r)%Qc).
Proof.
  intros R.
  destruct (respond w (subscription_request this)) as [|[[sub|]]] eqn:H.
  - rewrite (tryNewAPIBilling_rejected this w log H) in R. discriminate R.
  - destruct (Json.error sub) eqn:E.
    + rewrite (tryNewAPIBilling_error this w log _ sub H eq_refl E) in R.
      discriminate R.
    + rewrite (tryNewAPIBilling_usage this w log _ sub H eq_refl E) in R.
      exists sub. split; [reflexivity|]. split; [exact E|].
      destruct (Promise_all _) as [|[|r1 [|r2 [|r3 [|r4 l]]]]];
        try discriminate R.
      injection R as <- _. cbn. repeat split; reflexivity.
  - rewrite (tryNewAPIBilling_no_data this w log _ H eq_refl) in R. discriminate R.
Qed.

Lemma tryOneAPI_some (this : UniversalProvider) (w : World)
    (log log' : list Axios.Request) (r : UsageResult) :
  tryOneAPI this w log = (Return (Some r), log') ->
  type r = "OneAPI" /\ error r = None
  /\ total r = (remaining r + totalUsed r)%Qc
  /\ remaining r = (total r - totalUsed r)%Qc.
Proof.
  intros R.
  destruct (respond w (self_request this)) as [|response] eqn:H.
  - rewrite (tryOneAPI_rejected this w log H) in R. discriminate R.
  - destruct (opt_chain (Axios.data response) Json.data) as [data|] eqn:E.
    + rewrite (tryOneAPI_data this w log response data H E) in R.
      injection R as <- _. cbn. repeat split. ring.
    + rewrite (tryOneAPI_no_data this w log response H E) in R. discriminate R.
Qed.

Lemma tryOpenRouter_some (this : UniversalProvider) (w : World)
    (log log' : list Axios.Request) (r : UsageResult) :
  tryOpenRouter this w log = (Return (Some r), log') ->
  type r = "OpenRouter" /\ error r = None
  /\ remaining r = (if gtb (total r) 0%Qc then (total r - totalUsed r)%Qc else 0%Qc).
Proof.
  intros R.
  destruct (includes (endpoint this) "openrouter.ai") eqn:host.
  - destruct (respond w (key_request this)) as [|response] eqn:H.
    + rewrite (tryOpenRouter_rejected this w log host H) in R. discriminate R.
    + destruct (opt_chain (Axios.data response) Json.data) as [data|] eqn:E.
      * rewrite (tryOpenRouter_data this w log host response data H E) in R.
        injection R as <- _. cbn. repeat split.
      * rewrite (tryOpenRouter_no_data this w log host response H E) in R.
        discriminate R.
  - rewrite (tryOpenRouter_other_host this w log host) in R. discriminate R.
Qed.

(** A record without [error] that [fetchUsage] returns is the record of one
    of the three probes. *)
Lemma fetchUsage_from_probe (this : UniversalProvider) (w : World)
    (log log' : list Axios.Request) (r : UsageResult) :
  fetchUsage this w log = (Return r, log') ->
  error r = None ->
  exists log0,
    tryNewAPIBilling this w log0 = (Return (Some r), log')
    \/ tryOneAPI this w log0 = (Return (Some r), log')
    \/ tryOpenRouter this w log0 = (Return (Some r), log').
Proof.
  intros F E.
  destruct (truthy (apiKey this)) eqn:Hk; [destruct (truthy (endpoint this)) eqn:He|].
  - rewrite (fetchUsage_configured this w log Hk He) in F.
    destruct (for_detectors_probe _ [tryOneAPI this; tryOpenRouter this] w log
                (tryNewAPIBilling_probe_like this)) as [resA [logA [RA [_ FA]]]].
    rewrite FA in F. destruct resA as [rA|].
    { injection F as <- <-. exists log. left. exact RA. }
    destruct (for_detectors_probe _ [tryOpenRouter this] w logA
                (tryOneAPI_probe_like this)) as [resB [logB [RB [_ FB]]]].
    rewrite FB in F. destruct resB as [rB|].
    { injection F as <- <-. exists logA. right. left. exact RB. }
    destruct (for_detectors_probe _ [] w logB
                (tryOpenRouter_probe_like this)) as [resC [logC [RC [_ FC]]]].
    rewrite FC in F. destruct resC as [rC|].
    { injection F as <- <-. exists logB. right. right. exact RC. }
    injection F as <- _. discriminate E.
  - rewrite (fetchUsage_not_configured this w log) in F.
    + injection F as <- _. discriminate E.
    + right. apply truthy_false_iff. exact He.
  - rewrite (fetchUsage_not_configured this w log) in F.
    + injection F as <- _. discriminate E.
    + left. apply truthy_false_iff. exact Hk.
Qed.

Lemma Qclt_irrefl (q : Qc) : ~ (q < q)%Qc.
Proof. unfold Qclt. apply Qlt_irrefl. Qed.

(** C5, as the code has it.  In a record that [fetchUsage] returns without
    [error]: when [total] is positive, [remaining] is [total - totalUsed];
    a record of type ['OneAPI'] has [total = remaining + totalUsed] always;
    a record of type ['OpenRouter'] with [total = 0] has [remaining = 0]; and
    a record of type ['NewAPI'] read from a subscription whose
    [hard_limit_usd] is at least 1000000 has [total = 0] and
    [remaining = 0], whatever was used. *)
Theorem fetchUsage_remaining (this : UniversalProvider) (w : World)
    (log log' : list Axios.Request) (r : UsageResult) :
  fetchUsage this w log = (Return r, log') ->
  error r = None ->
  ((0 < total r)%Qc -> remaining r = (total r - totalUsed r)%Qc)
  /\ (type r = "OneAPI" -> total r = (remaining r + totalUsed r)%Qc)
  /\ (type r = "OpenRouter" -> total r = 0%Qc -> remaining r = 0%Qc)
  /\ (forall sub H,
        type r = "NewAPI" ->
        respond w (subscription_request this) = fulfilled_with sub ->
        Json.hard_limit_usd sub = Some H ->
        (Q2Qc 1000000 <= H)%Qc ->
        total r = 0%Qc /\ remaining r = 0%Qc).
Proof.
  intros F E.
  destruct (fetchUsage_from_probe this w log log' r F E) as [log0 [R | [R | R]]].
  - destruct (tryNewAPIBilling_some this w log0 log' r R)
      as [sub [Hs [_ [Ty [_ [Tot Rem]]]]]].
    split; [|split; [|split]].
    + intros Pos. destruct (geb _ _).
      * rewrite Tot in Pos. destruct (Qclt_irrefl _ Pos).
      * rewrite Rem, Tot. reflexivity.
    + intros T. rewrite Ty in T. discriminate T.
    + intros T. rewrite Ty in T. discriminate T.
    + intros sub' H _ Hs' Hh Hcmp. rewrite Hs in Hs'. injection Hs' as <-.
      rewrite Hh, or_zero_Some in Tot, Rem.
      apply geb_true_iff in Hcmp. rewrite Hcmp in Tot, Rem. split; assumption.
  - destruct (tryOneAPI_some this w log0 log' r R) as [Ty [_ [Tot Rem]]].
    split; [|split; [|split]].
    + intros _. exact Rem.
    + intros _. exact Tot.
    + intros T. rewrite Ty in T. discriminate T.
    + intros sub H T. rewrite Ty in T. discriminate T.
  - destruct (tryOpenRouter_some this w log0 log' r R) as [Ty [_ Rem]].
    split; [|split; [|split]].
    + intros Pos. apply gtb_true_iff in Pos. rewrite Pos in Rem. exact Rem.
    + intros T. rewrite Ty in T. discriminate T.
    + intros _ Z. rewrite Rem, Z. reflexivity.
    + intros sub H T. rewrite Ty in T. discriminate T.
Qed.

Lemma fetchUsage_remaining_witness :
  ((0 < total newapi_record)%Qc ->
   remaining newapi_record = (total newapi_record - totalUsed newapi_record)%Qc)
  /\ (type newapi_record = "OneAPI" ->
      total newapi_record = (remaining newapi_record + totalUsed newapi_record)%Qc)
  /\ (type newapi_record = "OpenRouter" ->
      total newapi_record = 0%Qc -> remaining newapi_record = 0%Qc)
  /\ (forall sub H,
        type newapi_record = "NewAPI" ->
        respond newapi_world (subscription_request example_provider) = fulfilled_with sub ->
        Json.hard_limit_usd sub = Some H ->
        (Q2Qc 1000000 <= H)%Qc ->
        total newapi_record = 0%Qc /\ remaining newapi_record = 0%Qc).
Proof.
  apply (fetchUsage_remaining example_provider newapi_world []
           (newapi_requests example_provider newapi_world) newapi_record).
  - reflexivity.
  - reflexivity.
Defined.

(** Where C5 as written fails.  A backend that reports no spending limit
    ([hard_limit_usd] of 2000000) and 4500 cents used gives a record with
    [total = 0], [remaining = 0] and [totalUsed = 45]: [remaining] is not
    [total - totalUsed].  A subscription without [hard_limit_usd] and the same
    usage gives [total = 0] and [remaining = -45]: [remaining] is not 0 where
    [total] is. *)
Lemma fetchUsage_remaining_counterexample :
  (fetchUsage example_provider unlimited_world [] =
     (Return unlimited_record, newapi_requests example_provider unlimited_world)
   /\ error unlimited_record = None
   /\ total unlimited_record = 0%Qc
   /\ remaining unlimited_record = 0%Qc
   /\ totalUsed unlimited_record = Q2Qc 45
   /\ remaining unlimited_record
      <> (total unlimited_record - totalUsed unlimited_record)%Qc)
  /\ (fetchUsage example_provider no_limit_world [] =
        (Return no_limit_record, newapi_requests example_provider no_limit_world)
      /\ error no_limit_record = None
      /\ total no_limit_record = 0%Qc
      /\ remaining no_limit_record = Q2Qc (-45)
      /\ remaining no_limit_record <> 0%Qc).
Proof.
  split.
  - split; [reflexivity|]. split; [reflexivity|]. split; [reflexivity|].
    split; [reflexivity|]. split.
    + apply Qc_is_canon. reflexivity.
    + intros E. apply (f_equal Qcanon.this) in E. vm_compute in E. discriminate E.
  - split; [reflexivity|]. split; [reflexivity|]. split; [reflexivity|]. split.
    + apply Qc_is_canon. reflexivity.
    + intros E. apply (f_equal Qcanon.this) in E. vm_compute in E. discriminate E.
Qed.

(** ** The scenarios, in numbers *)

(** A limit of 50 dollars with 250, 4000 and 4500 cents used reads as 2.5, 40
    and 45 dollars used and 5 dollars left. *)
Example newapi_scenario :
  fetchUsage example_provider newapi_world [] =
    (Return newapi_record, newapi_requests example_provider newapi_world)
  /\ todayUsed newapi_record = Q2Qc (5 # 2)
  /\ monthUsed newapi_record = Q2Qc 40
  /\ totalUsed newapi_record = Q2Qc 45
  /\ total newapi_record = Q2Qc 50
  /\ remaining newapi_record = Q2Qc 5.
Proof.
  split; [reflexivity|].
  repeat split; apply Qc_is_canon; reflexivity.
Qed.

(** Format A rejected, 2500000 units left and 500000 used on Format B: 1
    dollar used, 5 left, 6 in total. *)
Example oneapi_scenario :
  exists r,
    fetchUsage example_provider oneapi_world [] =
      (Return r, [subscription_request example_provider; self_request example_provider])
    /\ totalUsed r = Q2Qc 1 /\ total r = Q2Qc 6 /\ remaining r = Q2Qc 5
    /\ todayUsed r = 0%Qc /\ monthUsed r = 0%Qc /\ type r = "OneAPI".
Proof.
  eexists. split; [reflexivity|]. cbn.
  repeat split; apply Qc_is_canon; reflexivity.
Qed.

(** A subscription without [hard_limit_usd]: [total] is 0 and [remaining] is
    the negated usage. *)
Example no_limit_scenario :
  fetchUsage example_provider no_limit_world [] =
    (Return no_limit_record, newapi_requests example_provider no_limit_world)
  /\ total no_limit_record = 0%Qc
  /\ remaining no_limit_record = Q2Qc (-45).
Proof.
  split; [reflexivity|]. split; [reflexivity|].
  apply Qc_is_canon. reflexivity.
Qed.

(** Formats A and B rejected on an OpenRouter endpoint, 12.34 dollars used of
    100: 87.66 left. *)
Example openrouter_scenario :
  exists r,
    fetchUsage openrouter_provider openrouter_world [] =
      (Return r, [subscription_request openrouter_provider;
                  self_request openrouter_provider;
                  key_request openrouter_provider])
    /\ totalUsed r = Q2Qc (1234 # 100) /\ total r = Q2Qc 100
    /\ remaining r = Q2Qc (8766 # 100) /\ type r = "OpenRouter".
Proof.
  eexists. split; [reflexivity|]. cbn.
  repeat split; apply Qc_is_canon; reflexivity.
Qed.

(** * Beyond the claims: what else [UniversalProvider] guarantees *)

Lemma prefix_app (s t : string) : String.prefix s (s ++ t) = true.
Proof.
  induction s as [|c s IH]; [destruct t; reflexivity|].
  cbn [append String.prefix]. destruct (ascii_dec c c) as [_|N]; [exact IH|].
  destruct (N eq_refl).
Qed.

(** The requests of each probe, with what its record looks like. *)
Lemma tryNewAPIBilling_sends (this : UniversalProvider) (w : World)
    (log : list Axios.Request) :
  exists result requests,
    tryNewAPIBilling this w log = (Return result, (log ++ requests)%list)
    /\ (requests = [subscription_request this] \/ requests = newapi_requests this w)
    /\ forall r, result = Some r ->
         error r = None /\ type r = "NewAPI" /\ requests = newapi_requests this w.
Proof.
  destruct (respond w (subscription_request this)) as [|[[sub|]]] eqn:H.
  - exists None, [subscription_request this].
    split; [exact (tryNewAPIBilling_rejected this w log H)|].
    split; [left; reflexivity | discriminate].
  - destruct (Json.error sub) eqn:E.
    + exists None, [subscription_request this].
      split; [exact (tryNewAPIBilling_error this w log _ sub H eq_refl E)|].
      split; [left; reflexivity | discriminate].
    + eexists. exists (newapi_requests this w).
      split; [exact (tryNewAPIBilling_usage this w log _ sub H eq_refl E)|].
      split; [right; reflexivity|].
      intros r Er.
      destruct (Promise_all _) as [|[|r1 [|r2 [|r3 [|r4 l]]]]]; try discriminate Er.
      injection Er as <-. repeat split.
  - exists None, [subscription_request this].
    split; [exact (tryNewAPIBilling_no_data this w log _ H eq_refl)|].
    split; [left; reflexivity | discriminate].
Qed.

Lemma tryOneAPI_sends (this : UniversalProvider) (w : World)
    (log : list Axios.Request) :
  exists result,
    tryOneAPI this w log = (Return result, (log ++ [self_request this])%list)
    /\ forall r, result = Some r ->
         error r = None /\ type r = "OneAPI"
         /\ todayUsed r = 0%Qc /\ monthUsed r = 0%Qc.
Proof.
  destruct (respond w (self_request this)) as [|response] eqn:H.
  - exists None. split; [exact (tryOneAPI_rejected this w log H) | discriminate].
  - destruct (opt_chain (Axios.data response) Json.data) as [data|] eqn:E.
    + eexists. split; [exact (tryOneAPI_data this w log response data H E)|].
      intros r Er. injection Er as <-. repeat split.
    + exists None.
      split; [exact (tryOneAPI_no_data this w log response H E) | discriminate].
Qed.

Lemma tryOpenRouter_sends (this : UniversalProvider) (w : World)
    (log : list Axios.Request) :
  exists result requests,
    tryOpenRouter this w log = (Return result, (log ++ requests)%list)
    /\ ((requests = [] /\ result = None
         /\ includes (endpoint this) "openrouter.ai" = false)
        \/ (requests = [key_request this]
            /\ includes (endpoint this) "openrouter.ai" = true))
    /\ forall r, result = Some r ->
         error r = None /\ type r = "OpenRouter"
         /\ todayUsed r = 0%Qc /\ monthUsed r = 0%Qc.
Proof.
  destruct (includes (endpoint this) "openrouter.ai") eqn:host.
  - destruct (respond w (key_request this)) as [|response] eqn:H.
    + exists None, [key_request this].
      split; [exact (tryOpenRouter_rejected this w log host H)|].
      split; [right; split; reflexivity | discriminate].
    + destruct (opt_chain (Axios.data response) Json.data) as [data|] eqn:E.
      * eexists. exists [key_request this].
        split; [exact (tryOpenRouter_data this w log host response data H E)|].
        split; [right; split; reflexivity|].
        intros r Er. injection Er as <-. repeat split.
      * exists None, [key_request this].
        split; [exact (tryOpenRouter_no_data this w log host response H E)|].
        split; [right; split; reflexivity | discriminate].
  - exists None, []. rewrite app_nil_r.
    split; [exact (tryOpenRouter_other_host this w log host)|].
    split; [left; repeat split | discriminate].
Qed.

(** What a run of [fetchUsage] on a configured provider is made of: the
    requests of Format A, then perhaps the one of Format B, then perhaps the
    one of Format C; and the record of the probe that stopped it. *)
Lemma fetchUsage_run (this : UniversalProvider) (w : World)
    (log : list Axios.Request) :
  truthy (apiKey this) = true ->
  truthy (endpoint this) = true ->
  exists r requestsA requestsB requestsC,
    fetchUsage this w log =
      (Return r, (log ++ requestsA ++ requestsB ++ requestsC)%list)
    /\ (requestsA = [subscription_request this]
        \/ requestsA = newapi_requests this w)
    /\ (requestsB = [] \/ requestsB = [self_request this])
    /\ (requestsC = []
        \/ (requestsC = [key_request this]
            /\ includes (endpoint this) "openrouter.ai" = true))
    /\ ((error r = None /\ type r = "NewAPI"
         /\ requestsA = newapi_requests this w /\ requestsB = [] /\ requestsC = [])
        \/ (error r = None /\ type r = "OneAPI"
            /\ todayUsed r = 0%Qc /\ monthUsed r = 0%Qc
            /\ requestsB = [self_request this] /\ requestsC = [])
        \/ (error r = None /\ type r = "OpenRouter"
            /\ todayUsed r = 0%Qc /\ monthUsed r = 0%Qc
            /\ requestsB = [self_request this] /\ requestsC = [key_request this])
        \/ (r = unknown "Unable to detect API type"
            /\ requestsB = [self_request this])).
Proof.
  intros Hk He. rewrite (fetchUsage_configured this w log Hk He).
  destruct (tryNewAPIBilling_sends this w log) as [resA [reqsA [RA [SA FA]]]].
  rewrite for_detectors_cons, RA.
  destruct resA as [r|].
  - destruct (FA r eq_refl) as [E [T Q]]. cbn [accepted]. rewrite E.
    exists r, reqsA, [], []. rewrite !app_nil_r.
    split; [reflexivity|]. split; [exact SA|]. split; [left; reflexivity|].
    split; [left; reflexivity|]. left. repeat split; assumption.
  - cbn [accepted].
    destruct (tryOneAPI_sends this w (log ++ reqsA)%list) as [resB [RB FB]].
    rewrite for_detectors_cons, RB.
    destruct resB as [r|].
    + destruct (FB r eq_refl) as [E [T [Z1 Z2]]]. cbn [accepted]. rewrite E.
      exists r, reqsA, [self_request this], []. rewrite app_nil_r, app_assoc.
      split; [reflexivity|]. split; [exact SA|]. split; [right; reflexivity|].
      split; [left; reflexivity|]. right. left. repeat split; assumption.
    + cbn [accepted].
      destruct (tryOpenRouter_sends this w ((log ++ reqsA) ++ [self_request this])%list)
        as [resC [reqsC [RC [SC FC]]]].
      rewrite for_detectors_cons, RC.
      assert (SC' : reqsC = [] \/
                    (reqsC = [key_request this]
                     /\ includes (endpoint this) "openrouter.ai" = true)).
      { destruct SC as [[S _] | S]; [left; exact S | right; exact S]. }
      destruct resC as [r|].
      * destruct (FC r eq_refl) as [E [T [Z1 Z2]]]. cbn [accepted]. rewrite E.
        exists r, reqsA, [self_request this], reqsC.
        rewrite <- !app_assoc.
        split; [reflexivity|]. split; [exact SA|]. split; [right; reflexivity|].
        split; [exact SC'|]. right. right. left.
        destruct SC as [[_ [N _]] | [S _]]; [discriminate N|].
        repeat split; assumption.
      * cbn [accepted for_detectors]. unfold ret.
        exists (unknown "Unable to detect API type"), reqsA, [self_request this], reqsC.
        rewrite <- !app_assoc.
        split; [reflexivity|]. split; [exact SA|]. split; [right; reflexivity|].
        split; [exact SC'|]. right. right. right. split; reflexivity.
Qed.

(** X1. [fetchUsage] never throws, whatever the backend answers and whether
    or not the provider is configured; it only adds requests to the log, at
    most six of them, and at most five when the endpoint does not mention
    ['openrouter.ai']. *)
Theorem fetchUsage_never_throws (this : UniversalProvider) (w : World)
    (log : list Axios.Request) :
  exists r requests,
    fetchUsage this w log = (Return r, (log ++ requests)%list)
    /\ (List.length requests <= 6)%nat
    /\ (includes (endpoint this) "openrouter.ai" = false -> (List.length requests <= 5)%nat).
Proof.
  destruct (truthy (apiKey this)) eqn:Hk; [destruct (truthy (endpoint this)) eqn:He|].
  - destruct (fetchUsage_run this w log Hk He)
      as [r [rA [rB [rC [F [SA [SB [SC _]]]]]]]].
    exists r, (rA ++ rB ++ rC)%list. split; [exact F|].
    rewrite !length_app.
    assert (LA : (List.length rA <= 4)%nat) by (destruct SA as [-> | ->]; cbn; auto).
    assert (LB : (List.length rB <= 1)%nat) by (destruct SB as [-> | ->]; cbn; auto).
    split.
    + assert (LC : (List.length rC <= 1)%nat) by (destruct SC as [-> | [-> _]]; cbn; auto).
      apply (PeanoNat.Nat.add_le_mono _ 4 _ 2 LA).
      apply (PeanoNat.Nat.add_le_mono _ 1 _ 1 LB LC).
    + intros host.
      assert (LC : (List.length rC <= 0)%nat).
      { destruct SC as [-> | [_ C]]; [cbn; auto | rewrite host in C; discriminate C]. }
      apply (PeanoNat.Nat.add_le_mono _ 4 _ 1 LA).
      apply (PeanoNat.Nat.add_le_mono _ 1 _ 0 LB LC).
  - exists (unknown "API Key or Endpoint not configured"), []. rewrite app_nil_r.
    split; [|split; [|intros _]; apply PeanoNat.Nat.le_0_l].
    apply fetchUsage_not_configured. right. apply truthy_false_iff. exact He.
  - exists (unknown "API Key or Endpoint not configured"), []. rewrite app_nil_r.
    split; [|split; [|intros _]; apply PeanoNat.Nat.le_0_l].
    apply fetchUsage_not_configured. left. apply truthy_false_iff. exact Hk.
Qed.

Lemma endpoint_requests_sent (this : UniversalProvider) (w : World) (rq : Axios.Request) :
  In rq (endpoint_requests this w) ->
  Axios.headers rq = Axios.default_headers (client this)
  /\ Axios.timeout rq = Axios.default_timeout (client this)
  /\ String.prefix (endpoint this) (Axios.url rq) = true.
Proof.
  unfold endpoint_requests, newapi_requests. cbn [app In].
  intros [<- | [<- | [<- | [<- | [<- | []]]]]];
    (split; [reflexivity|]; split; [reflexivity|]; apply prefix_app).
Qed.

(** X2. Every request that [fetchUsage] starts for the provider built from
    [key] and [base] carries the bearer header made from [key] and the
    30-second timeout, and goes either to a URL that begins with the endpoint
    (without its trailing slash) or, only when the endpoint contains
    ['openrouter.ai'], to [https://openrouter.ai/api/v1/auth/key]. *)
Theorem fetchUsage_destinations (key base : string) (w : World)
    (log : list Axios.Request) :
  exists r requests,
    fetchUsage (new_UniversalProvider key base) w log =
      (Return r, (log ++ requests)%list)
    /\ forall rq, In rq requests ->
         Axios.headers rq =
           [("Authorization", "Bearer " ++ key); ("Content-Type", "application/json")]
         /\ Axios.timeout rq = 30000%N
         /\ (String.prefix (replace_trailing_slash base) (Axios.url rq) = true
             \/ (includes base "openrouter.ai" = true
                 /\ Axios.url rq = "https://openrouter.ai/api/v1/auth/key")).
Proof.
  set (this := new_UniversalProvider key base).
  destruct (truthy (apiKey this)) eqn:Hk; [destruct (truthy (endpoint this)) eqn:He|].
  - destruct (fetchUsage_run this w log Hk He)
      as [r [rA [rB [rC [F [SA [SB [SC _]]]]]]]].
    exists r, (rA ++ rB ++ rC)%list. split; [exact F|].
    intros rq Hin. apply in_app_or in Hin.
    assert (Home : In rq (endpoint_requests this w) ->
                   Axios.headers rq =
                     [("Authorization", "Bearer " ++ key);
                      ("Content-Type", "application/json")]
                   /\ Axios.timeout rq = 30000%N
                   /\ (String.prefix (replace_trailing_slash base) (Axios.url rq) = true
                       \/ (includes base "openrouter.ai" = true
                           /\ Axios.url rq = "https://openrouter.ai/api/v1/auth/key"))).
    { intros I. destruct (endpoint_requests_sent this w rq I) as [Hh [Ht Hp]].
      split; [exact Hh|]. split; [exact Ht|]. left. exact Hp. }
    destruct Hin as [Hin | Hin].
    + apply Home. unfold endpoint_requests. apply in_or_app. left.
      destruct SA as [-> | ->]; [|exact Hin].
      destruct Hin as [<- | []]. left. reflexivity.
    + apply in_app_or in Hin. destruct Hin as [Hin | Hin].
      * apply Home. unfold endpoint_requests. apply in_or_app. right.
        destruct SB as [-> | ->]; [destruct Hin | exact Hin].
      * destruct SC as [-> | [-> host]]; [destruct Hin|].
        destruct Hin as [<- | []].
        split; [reflexivity|]. split; [reflexivity|]. right.
        split; [|reflexivity].
        rewrite <- (includes_replace_trailing_slash "openrouter.ai" base eq_refl).
        exact host.
  - exists (unknown "API Key or Endpoint not configured"), []. rewrite app_nil_r.
    split; [|intros rq []].
    apply fetchUsage_not_configured. right. apply truthy_false_iff. exact He.
  - exists (unknown "API Key or Endpoint not configured"), []. rewrite app_nil_r.
    split; [|intros rq []].
    apply fetchUsage_not_configured. left. apply truthy_false_iff. exact Hk.
Qed.

(** X3. The record of [fetchUsage] is of one of four types.  It has no [error]
    exactly when its type is ['NewAPI'], ['OneAPI'] or ['OpenRouter']; a
    record of type ['unknown'] carries one of the two fixed messages and has
    every number at 0. *)
Theorem fetchUsage_type_and_error (this : UniversalProvider) (w : World)
    (log : list Axios.Request) :
  exists r log',
    fetchUsage this w log = (Return r, log')
    /\ ((error r = None
         /\ (type r = "NewAPI" \/ type r = "OneAPI" \/ type r = "OpenRouter"))
        \/ (type r = "unknown"
            /\ (error r = Some "Unable to detect API type"
                \/ error r = Some "API Key or Endpoint not configured")
            /\ todayUsed r = 0%Qc /\ monthUsed r = 0%Qc /\ totalUsed r = 0%Qc
            /\ total r = 0%Qc /\ remaining r = 0%Qc)).
Proof.
  destruct (truthy (apiKey this)) eqn:Hk; [destruct (truthy (endpoint this)) eqn:He|].
  - destruct (fetchUsage_run this w log Hk He)
      as [r [rA [rB [rC [F [_ [_ [_ K]]]]]]]].
    exists r. eexists. split; [exact F|].
    destruct K as [[E [T _]] | [[E [T _]] | [[E [T _]] | [-> _]]]].
    + left. split; [exact E | left; exact T].
    + left. split; [exact E | right; left; exact T].
    + left. split; [exact E | right; right; exact T].
    + right. cbn. repeat split. left. reflexivity.
  - exists (unknown "API Key or Endpoint not configured"), log.
    split; [apply fetchUsage_not_configured; right; apply truthy_false_iff; exact He|].
    right. cbn. repeat split. right. reflexivity.
  - exists (unknown "API Key or Endpoint not configured"), log.
    split; [apply fetchUsage_not_configured; left; apply truthy_false_iff; exact Hk|].
    right. cbn. repeat split. right. reflexivity.
Qed.

(** X4. Daily and monthly figures come from Format A only: a record that
    [fetchUsage] returns with a type other than ['NewAPI'] has [todayUsed = 0]
    and [monthUsed = 0]. *)
Theorem fetchUsage_windows_only_newapi (this : UniversalProvider) (w : World)
    (log log' : list Axios.Request) (r : UsageResult) :
  fetchUsage this w log = (Return r, log') ->
  type r <> "NewAPI" ->
  todayUsed r = 0%Qc /\ monthUsed r = 0%Qc.
Proof.
  intros F N.
  destruct (truthy (apiKey this)) eqn:Hk; [destruct (truthy (endpoint this)) eqn:He|].
  - destruct (fetchUsage_run this w log Hk He)
      as [r' [rA [rB [rC [F' [_ [_ [_ K]]]]]]]].
    rewrite F' in F. injection F as -> _.
    destruct K as [[_ [T _]] | [[_ [_ [Z1 [Z2 _]]]] | [[_ [_ [Z1 [Z2 _]]]] | [-> _]]]].
    + destruct (N T).
    + split; assumption.
    + split; assumption.
    + split; reflexivity.
  - rewrite (fetchUsage_not_configured this w log) in F.
    + injection F as <- _. split; reflexivity.
    + right. apply truthy_false_iff. exact He.
  - rewrite (fetchUsage_not_configured this w log) in F.
    + injection F as <- _. split; reflexivity.
    + left. apply truthy_false_iff. exact Hk.
Qed.

Lemma fetchUsage_windows_only_newapi_witness :
  todayUsed oneapi_record = 0%Qc /\ monthUsed oneapi_record = 0%Qc.
Proof.
  apply (fetchUsage_windows_only_newapi example_provider oneapi_world []
           [subscription_request example_provider; self_request example_provider]
           oneapi_record).
  - reflexivity.
  - discriminate.
Defined.

(** ** Signs *)

Lemma Qcdiv_nonneg (q c : Qc) : (0 <= q)%Qc -> (0 < c)%Qc -> (0 <= q / c)%Qc.
Proof.
  intros Hq Hc. apply (Qcmult_lt_0_le_reg_r _ _ c Hc).
  rewrite Qcmult_0_l.
  replace (q / c * c)%Qc with q; [exact Hq|].
  unfold Qcdiv. rewrite <- Qcmult_assoc, Qcmult_inv_l, Qcmult_1_r; [reflexivity|].
  intros E. rewrite E in Hc. exact (Qclt_irrefl _ Hc).
Qed.

Lemma Qcplus_nonneg (a b : Qc) : (0 <= a)%Qc -> (0 <= b)%Qc -> (0 <= a + b)%Qc.
Proof.
  intros Ha Hb. replace 0%Qc with (0 + 0)%Qc by apply Qcplus_0_l.
  apply Qcplus_le_compat; assumption.
Qed.

Lemma Qcminus_le (a u : Qc) : (0 <= u)%Qc -> (a - u <= a)%Qc.
Proof.
  intros Hu. apply Qcle_minus_iff.
  replace (a + - (a - u))%Qc with u by ring. exact Hu.
Qed.

Lemma Qcle_plus_r (a u : Qc) : (0 <= u)%Qc -> (a <= a + u)%Qc.
Proof.
  intros Hu. apply Qcle_minus_iff.
  replace (a + u + - a)%Qc with u by ring. exact Hu.
Qed.

Lemma or_zero_nonneg (v : option Qc) : nonnegative v -> (0 <= or_zero v)%Qc.
Proof.
  intros H. destruct v as [q|].
  - rewrite or_zero_Some. apply H. reflexivity.
  - apply Qcle_refl.
Qed.

Lemma hundred_pos : (0 < Q2Qc 100)%Qc.
Proof. reflexivity. Qed.

Lemma unit_pos : (0 < Q2Qc 500000)%Qc.
Proof. reflexivity. Qed.

(** What a fulfilled response holds in a world without negative numbers. *)
Lemma nonnegative_total_usage (w : World) (rq : Axios.Request)
    (response : Axios.Response) :
  nonnegative_world w ->
  respond w rq = Fulfilled response ->
  nonnegative (opt_chain (Axios.data response) Json.total_usage).
Proof.
  intros W H. destruct response as [[b|]].
  - destruct (W rq b H) as [_ [U _]]. exact U.
  - intros q E. discriminate E.
Qed.

Lemma nonnegative_data (w : World) (rq : Axios.Request)
    (response : Axios.Response) (d : Json.Inner) :
  nonnegative_world w ->
  respond w rq = Fulfilled response ->
  opt_chain (Axios.data response) Json.data = Some d ->
  nonnegative_inner d.
Proof.
  intros W H E. destruct response as [[b|]]; [|discriminate E].
  destruct (W rq b H) as [_ [_ D]]. apply D. exact E.
Qed.

(** A record with an [error] is one of the two ['unknown'] records. *)
Lemma fetchUsage_error_is_unknown (this : UniversalProvider) (w : World)
    (log log' : list Axios.Request) (r : UsageResult) (e : string) :
  fetchUsage this w log = (Return r, log') ->
  error r = Some e ->
  r = unknown "Unable to detect API type"
  \/ r = unknown "API Key or Endpoint not configured".
Proof.
  intros F E.
  destruct (truthy (apiKey this)) eqn:Hk; [destruct (truthy (endpoint this)) eqn:He|].
  - destruct (fetchUsage_run this w log Hk He)
      as [r' [rA [rB [rC [F' [_ [_ [_ K]]]]]]]].
    rewrite F' in F. injection F as -> _.
    destruct K as [[N _] | [[N _] | [[N _] | [-> _]]]];
      try (rewrite N in E; discriminate E).
    left. reflexivity.
  - rewrite (fetchUsage_not_configured this w log) in F.
    + injection F as <- _. right. reflexivity.
    + right. apply truthy_false_iff. exact He.
  - rewrite (fetchUsage_not_configured this w log) in F.
    + injection F as <- _. right. reflexivity.
    + left. apply truthy_false_iff. exact Hk.
Qed.

Lemma tryNewAPIBilling_signs (this : UniversalProvider) (w : World)
    (log log' : list Axios.Request) (r : UsageResult) :
  nonnegative_world w ->
  tryNewAPIBilling this w log = (Return (Some r), log') ->
  signs_ok r.
Proof.
  intros W R.
  destruct (respond w (subscription_request this)) as [|[[sub|]]] eqn:H.
  - rewrite (tryNewAPIBilling_rejected this w log H) in R. discriminate R.
  - destruct (Json.error sub) eqn:E.
    + rewrite (tryNewAPIBilling_error this w log _ sub H eq_refl E) in R.
      discriminate R.
    + rewrite (tryNewAPIBilling_usage this w log _ sub H eq_refl E) in R.
      destruct (W _ sub H) as [HL _].
      pose proof (or_zero_nonneg _ HL) as HL'.
      destruct (respond w (usage_request this (todayStart w) (todayStart w)))
        as [|r1] eqn:H1; [discriminate R|].
      destruct (respond w (usage_request this (monthStart w) (todayStart w)))
        as [|r2] eqn:H2; [discriminate R|].
      destruct (respond w (usage_request this (yearStart w) (todayStart w)))
        as [|r3] eqn:H3; [discriminate R|].
      cbn in R. injection R as <- _.
      pose proof (or_zero_nonneg _ (nonnegative_total_usage w _ r1 W H1)) as U1.
      pose proof (or_zero_nonneg _ (nonnegative_total_usage w _ r2 W H2)) as U2.
      pose proof (or_zero_nonneg _ (nonnegative_total_usage w _ r3 W H3)) as U3.
      unfold signs_ok. cbn.
      split; [apply Qcdiv_nonneg; [exact U1 | exact hundred_pos]|].
      split; [apply Qcdiv_nonneg; [exact U2 | exact hundred_pos]|].
      split; [apply Qcdiv_nonneg; [exact U3 | exact hundred_pos]|].
      destruct (geb _ _).
      * split; apply Qcle_refl.
      * split; [exact HL'|]. apply Qcminus_le.
        apply Qcdiv_nonneg; [exact U3 | exact hundred_pos].
  - rewrite (tryNewAPIBilling_no_data this w log _ H eq_refl) in R. discriminate R.
Qed.

Lemma tryOneAPI_signs (this : UniversalProvider) (w : World)
    (log log' : list Axios.Request) (r : UsageResult) :
  nonnegative_world w ->
  tryOneAPI this w log = (Return (Some r), log') ->
  signs_ok r /\ (0 <= remaining r)%Qc.
Proof.
  intros W R.
  destruct (respond w (self_request this)) as [|response] eqn:H.
  - rewrite (tryOneAPI_rejected this w log H) in R. discriminate R.
  - destruct (opt_chain (Axios.data response) Json.data) as [d|] eqn:E.
    + rewrite (tryOneAPI_data this w log response d H E) in R.
      injection R as <- _.
      destruct (nonnegative_data w _ response d W H E) as [Q [U _]].
      pose proof (Qcdiv_nonneg _ _ (or_zero_nonneg _ Q) unit_pos) as Q'.
      pose proof (Qcdiv_nonneg _ _ (or_zero_nonneg _ U) unit_pos) as U'.
      unfold signs_ok. cbn.
      repeat split; try apply Qcle_refl; try assumption.
      * apply Qcplus_nonneg; assumption.
      * apply Qcle_plus_r. exact U'.
    + rewrite (tryOneAPI_no_data this w log response H E) in R. discriminate R.
Qed.

Lemma tryOpenRouter_signs (this : UniversalProvider) (w : World)
    (log log' : list Axios.Request) (r : UsageResult) :
  nonnegative_world w ->
  tryOpenRouter this w log = (Return (Some r), log') ->
  signs_ok r.
Proof.
  intros W R.
  destruct (includes (endpoint this) "openrouter.ai") eqn:host.
  - destruct (respond w (key_request this)) as [|response] eqn:H.
    + rewrite (tryOpenRouter_rejected this w log host H) in R. discriminate R.
    + destruct (opt_chain (Axios.data response) Json.data) as [d|] eqn:E.
      * rewrite (tryOpenRouter_data this w log host response d H E) in R.
        injection R as <- _.
        destruct (nonnegative_data w _ response d W H E) as [_ [_ [U L]]].
        pose proof (or_zero_nonneg _ U) as U'.
        pose proof (or_zero_nonneg _ L) as L'.
        unfold signs_ok. cbn.
        repeat split; try apply Qcle_refl; try assumption.
        destruct (gtb _ _); [apply Qcminus_le; exact U' | exact L'].
      * rewrite (tryOpenRouter_no_data this w log host response H E) in R.
        discriminate R.
  - rewrite (tryOpenRouter_other_host this w log host) in R. discriminate R.
Qed.

(** X5. When no response holds a negative number, every record of
    [fetchUsage] has [todayUsed], [monthUsed], [totalUsed] and [total] at
    least 0, and [remaining] at most [total]. *)
Theorem fetchUsage_signs (this : UniversalProvider) (w : World)
    (log log' : list Axios.Request) (r : UsageResult) :
  nonnegative_world w ->
  fetchUsage this w log = (Return r, log') ->
  (0 <= todayUsed r)%Qc /\ (0 <= monthUsed r)%Qc /\ (0 <= totalUsed r)%Qc
  /\ (0 <= total r)%Qc /\ (remaining r <= total r)%Qc.
Proof.
  intros W F.
  destruct (error r) as [e|] eqn:E.
  - destruct (fetchUsage_error_is_unknown this w log log' r e F E) as [-> | ->];
      cbn; repeat split; apply Qcle_refl.
  - destruct (fetchUsage_from_probe this w log log' r F E) as [log0 [R | [R | R]]].
    + exact (tryNewAPIBilling_signs this w log0 log' r W R).
    + exact (proj1 (tryOneAPI_signs this w log0 log' r W R)).
    + exact (tryOpenRouter_signs this w log0 log' r W R).
Qed.

Lemma newapi_world_nonnegative : nonnegative_world newapi_world.
Proof.
  intros rq b H. unfold newapi_world, world_of, newapi_backend in H. cbn in H.
  assert (N : nonnegative None) by (intros x E; discriminate E).
  repeat match type of H with
         | (if ?c then _ else _) = _ => destruct c
         end;
    try discriminate H; injection H as <-;
    (split; [|split]); cbn;
    try exact N;
    try (intros x E; injection E as <-; vm_compute; discriminate);
    intros d E; discriminate E.
Qed.

Lemma fetchUsage_signs_witness :
  (0 <= todayUsed newapi_record)%Qc /\ (0 <= monthUsed newapi_record)%Qc
  /\ (0 <= totalUsed newapi_record)%Qc /\ (0 <= total newapi_record)%Qc
  /\ (remaining newapi_record <= total newapi_record)%Qc.
Proof.
  apply (fetchUsage_signs example_provider newapi_world []
           (newapi_requests example_provider newapi_world) newapi_record).
  - exact newapi_world_nonnegative.
  - reflexivity.
Defined.

(** ** How little Format A asks of a backend *)

(** X6. Format A matches as soon as the subscription body is truthy and has
    no truthy [error], and the three usage requests are fulfilled, whatever
    those bodies hold: an absent [hard_limit_usd] or [total_usage] reads as
    0.  [fetchUsage] then returns that ['NewAPI'] record after the four
    requests of Format A, without asking Format B.  A backend that answers
    every route with a body holding none of these fields is read as
    ['NewAPI'] with every number at 0. *)
Theorem fetchUsage_newapi_lenient (this : UniversalProvider) (w : World)
    (log : list Axios.Request) (sub : Json.Body)
    (today month year : Axios.Response) :
  truthy (apiKey this) = true ->
  truthy (endpoint this) = true ->
  respond w (subscription_request this) = fulfilled_with sub ->
  Json.error sub = false ->
  respond w (usage_request this (todayStart w) (todayStart w)) = Fulfilled today ->
  respond w (usage_request this (monthStart w) (todayStart w)) = Fulfilled month ->
  respond w (usage_request this (yearStart w) (todayStart w)) = Fulfilled year ->
  exists r,
    fetchUsage this w log = (Return r, (log ++ newapi_requests this w)%list)
    /\ type r = "NewAPI" /\ error r = None
    /\ todayUsed r = (or_zero (opt_chain (Axios.data today) Json.total_usage) / Q2Qc 100)%Qc
    /\ monthUsed r = (or_zero (opt_chain (Axios.data month) Json.total_usage) / Q2Qc 100)%Qc
    /\ totalUsed r = (or_zero (opt_chain (Axios.data year) Json.total_usage) / Q2Qc 100)%Qc
    /\ (Json.hard_limit_usd sub = None ->
        total r = 0%Qc /\ remaining r = (0 - totalUsed r)%Qc)
    /\ (Json.hard_limit_usd sub = None ->
        opt_chain (Axios.data today) Json.total_usage = None ->
        opt_chain (Axios.data month) Json.total_usage = None ->
        opt_chain (Axios.data year) Json.total_usage = None ->
        r = {| todayUsed := 0%Qc; monthUsed := 0%Qc; totalUsed := 0%Qc;
               total := 0%Qc; remaining := 0%Qc;
               type := "NewAPI"; error := None |}).
Proof.
  intros Hk He Hs Hn H1 H2 H3.
  rewrite (fetchUsage_configured this w log Hk He), for_detectors_cons.
  rewrite (tryNewAPIBilling_usage this w log _ sub Hs eq_refl Hn).
  rewrite H1, H2, H3. cbn [Promise_all accepted error].
  eexists. split; [reflexivity|]. cbn.
  repeat (split; [reflexivity|]). split.
  - intros L. rewrite L. cbn. split; reflexivity.
  - intros L E1 E2 E3. rewrite L, E1, E2, E3. cbn.
    rewrite !Qcdiv_0_l.
    f_equal; try (apply Qc_is_canon; reflexivity).
Qed.

(** X7. The Format A probe gives [null] exactly when the subscription request
    is rejected, its body is falsy or has a truthy [error], or one of the
    three usage requests is rejected. *)
Theorem tryNewAPIBilling_null_iff (this : UniversalProvider) (w : World)
    (log : list Axios.Request) :
  fst (tryNewAPIBilling this w log) = Return None <->
  (respond w (subscription_request this) = Rejected
   \/ (exists response,
         respond w (subscription_request this) = Fulfilled response
         /\ (Axios.data response = None
             \/ exists sub, Axios.data response = Some sub /\ Json.error sub = true))
   \/ respond w (usage_request this (todayStart w) (todayStart w)) = Rejected
   \/ respond w (usage_request this (monthStart w) (todayStart w)) = Rejected
   \/ respond w (usage_request this (yearStart w) (todayStart w)) = Rejected).
Proof.
  destruct (respond w (subscription_request this)) as [|response] eqn:H.
  - rewrite (tryNewAPIBilling_rejected this w log H).
    split; [left; reflexivity | reflexivity].
  - destruct (Axios.data response) as [sub|] eqn:E1.
    + destruct (Json.error sub) eqn:E2.
      * rewrite (tryNewAPIBilling_error this w log _ sub H E1 E2). split; [|reflexivity].
        intros _. right. left. exists response. split; [reflexivity|].
        right. exists sub. split; assumption.
      * rewrite (tryNewAPIBilling_usage this w log _ sub H E1 E2). cbn [fst].
        destruct (respond w (usage_request this (todayStart w) (todayStart w)))
          as [|r1]; [split; [intros _; right; right; left; reflexivity | reflexivity]|].
        destruct (respond w (usage_request this (monthStart w) (todayStart w)))
          as [|r2];
          [split; [intros _; right; right; right; left; reflexivity | reflexivity]|].
        destruct (respond w (usage_request this (yearStart w) (todayStart w)))
          as [|r3];
          [split; [intros _; right; right; right; right; reflexivity | reflexivity]|].
        cbn. split; [discriminate|].
        intros [F | [[response' [F1 [F2 | [sub' [F2 F3]]]]] | [F | [F | F]]]];
          try discriminate F.
        -- injection F1 as <-. rewrite E1 in F2. discriminate F2.
        -- injection F1 as <-. rewrite E1 in F2. injection F2 as <-.
           rewrite E2 in F3. discriminate F3.
    + rewrite (tryNewAPIBilling_no_data this w log _ H E1). split; [|reflexivity].
      intros _. right. left. exists response. split; [reflexivity|].
      left. exact E1.
Qed.

Lemma fetchUsage_newapi_lenient_witness :
  exists r,
    fetchUsage example_provider blank_world [] =
      (Return r, ([] ++ newapi_requests example_provider blank_world)%list)
    /\ type r = "NewAPI" /\ error r = None
    /\ todayUsed r =
         (or_zero (opt_chain (Axios.data (Axios.mkResponse (Some blank_body)))
                     Json.total_usage) / Q2Qc 100)%Qc
    /\ monthUsed r =
         (or_zero (opt_chain (Axios.data (Axios.mkResponse (Some blank_body)))
                     Json.total_usage) / Q2Qc 100)%Qc
    /\ totalUsed r =
         (or_zero (opt_chain (Axios.data (Axios.mkResponse (Some blank_body)))
                     Json.total_usage) / Q2Qc 100)%Qc
    /\ (Json.hard_limit_usd blank_body = None ->
        total r = 0%Qc /\ remaining r = (0 - totalUsed r)%Qc)
    /\ (Json.hard_limit_usd blank_body = None ->
        opt_chain (Axios.data (Axios.mkResponse (Some blank_body))) Json.total_usage = None ->
        opt_chain (Axios.data (Axios.mkResponse (Some blank_body))) Json.total_usage = None ->
        opt_chain (Axios.data (Axios.mkResponse (Some blank_body))) Json.total_usage = None ->
        r = {| todayUsed := 0%Qc; monthUsed := 0%Qc; totalUsed := 0%Qc;
               total := 0%Qc; remaining := 0%Qc;
               type := "NewAPI"; error := None |}).
Proof.
  apply (fetchUsage_newapi_lenient example_provider blank_world [] blank_body
           (Axios.mkResponse (Some blank_body))
           (Axios.mkResponse (Some blank_body))
           (Axios.mkResponse (Some blank_body)));
    reflexivity.
Defined.

Example toFixed_exact_examples :
  toFixed_exact (Q2Qc 5) 2 = "5.00"
  /\ toFixed_exact (Q2Qc (8766 # 100)) 2 = "87.66"
  /\ toFixed_exact (Q2Qc (5 # 2)) 4 = "2.5000"
  /\ toFixed_exact (Q2Qc (-45)) 2 = "-45.00"
  /\ toFixed_exact (Q2Qc (1 # 200)) 2 = "0.01"
  /\ toFixed_exact (Q2Qc (901 # 10)) 1 = "90.1".
Proof. repeat split; reflexivity. Qed.

(** * The status bar *)


Section StatusBar.

Variable toFixed : Qc -> nat -> string.
Variables (config : Vscode.Configuration) (reads : CCSwitch.Reads).
Variables (s : Extension.State) (w : World) (log : list Axios.Request).

(** A refresh without key or endpoint. *)
Lemma refreshUsage_prompt :
  truthy (ApiConfig.apiKey (Extension.getApiConfig config reads)) = false
  \/ truthy (ApiConfig.endpoint (Extension.getApiConfig config reads)) = false ->
  Extension.refreshUsage toFixed config reads s w log =
    (Return
       (Extension.mkState
          (if CCSwitch.isCCSwitchInstalled reads
           then Vscode.mkStatusBarItem "$(plug) 选择 Provider"
                  (Some (Vscode.Plain "点击选择 CC Switch Provider"))
           else Vscode.mkStatusBarItem "$(key) Configure API"
                  (Some (Vscode.Plain "Click to configure API Key and Endpoint")))
          (Extension.lastUsage s)
          (ApiConfig.providerName (Extension.getApiConfig config reads))),
     log).
Proof.
  intros H. unfold Extension.refreshUsage.
  replace (negb (truthy (ApiConfig.apiKey (Extension.getApiConfig config reads)))
           || negb (truthy (ApiConfig.endpoint (Extension.getApiConfig config reads))))
    with true.
  - destruct (CCSwitch.isCCSwitchInstalled reads); reflexivity.
  - symmetry. apply orb_true_iff.
    destruct H as [H | H]; [left | right]; rewrite H; reflexivity.
Qed.

(** A refresh with key and endpoint: the record of [fetchUsage] is stored and
    handed to [updateStatusBar]. *)
Lemma refreshUsage_fetch (r : UsageResult) (log' : list Axios.Request) :
  truthy (ApiConfig.apiKey (Extension.getApiConfig config reads)) = true ->
  truthy (ApiConfig.endpoint (Extension.getApiConfig config reads)) = true ->
  fetchUsage
    (new_UniversalProvider (ApiConfig.apiKey (Extension.getApiConfig config reads))
       (ApiConfig.endpoint (Extension.getApiConfig config reads))) w log
  = (Return r, log') ->
  Extension.refreshUsage toFixed config reads s w log =
    (Return
       (Extension.updateStatusBar toFixed config r
          (Extension.set_lastUsage
             (Extension.set_text
                (Extension.set_currentProviderName s
                   (ApiConfig.providerName (Extension.getApiConfig config reads)))
                ("$(sync~spin) "
                 ++ Extension.prefix_of
                      (ApiConfig.providerName (Extension.getApiConfig config reads))
                 ++ "Loading..."))
             r)),
     log').
Proof.
  intros Hk He F. unfold Extension.refreshUsage. rewrite Hk, He. cbn [negb orb].
  unfold try_catch, bind. rewrite F. reflexivity.
Qed.

End StatusBar.

(** What [updateStatusBar] leaves in the state. *)
Lemma updateStatusBar_state (toFixed : Qc -> nat -> string)
    (config : Vscode.Configuration) (r : UsageResult) (s : Extension.State) :
  Extension.lastUsage (Extension.updateStatusBar toFixed config r s)
  = Extension.lastUsage s
  /\ Extension.currentProviderName (Extension.updateStatusBar toFixed config r s)
     = Extension.currentProviderName s
  /\ Vscode.text (Extension.statusBarItem (Extension.updateStatusBar toFixed config r s))
     = match Extension.truthy_error r with
       | Some message =>
           "$(warning) " ++ Extension.prefix_of (Extension.currentProviderName s)
           ++ message
       | None =>
           "$(credit-card) " ++ Extension.prefix_of (Extension.currentProviderName s)
           ++ (if gtb (total r) 0%Qc then "$" ++ toFixed (remaining r) 2%nat
               else if gtb (Vscode.initialBalance config) 0%Qc
                    then "$" ++ toFixed (Vscode.initialBalance config - totalUsed r)%Qc 2%nat
                    else "今日: $" ++ toFixed (todayUsed r) 2%nat)
       end.
Proof.
  unfold Extension.updateStatusBar.
  destruct (Extension.truthy_error r) as [message|].
  - repeat split.
  - destruct (gtb (total r) 0%Qc); [repeat split|].
    destruct (gtb (Vscode.initialBalance config) 0%Qc); repeat split.
Qed.

Lemma app_cons_neq {A : Type} (l : list A) (x : A) (t : list A) :
  (l ++ x :: t)%list <> l.
Proof.
  intros E. rewrite <- (app_nil_r l) in E at 2.
  apply app_inv_head in E. discriminate E.
Qed.

Lemma replace_trailing_slash_empty (e : string) :
  replace_trailing_slash e = "" <-> e = "" \/ e = "/".
Proof.
  split.
  - destruct e as [|c [|d e]]; cbn [replace_trailing_slash].
    + intros _. left. reflexivity.
    + destruct (Ascii.eqb c "/") eqn:E; [|discriminate].
      apply Ascii.eqb_eq in E. subst c. intros _. right. reflexivity.
    + discriminate.
  - intros [-> | ->]; reflexivity.
Qed.


(** X9. When the credentials in force lack the key or the endpoint, a refresh
    starts no request and keeps the last reading; the status bar asks to pick
    a provider when CC Switch is installed and to configure the API
    otherwise. *)
Theorem refreshUsage_unconfigured (toFixed : Qc -> nat -> string)
    (config : Vscode.Configuration) (reads : CCSwitch.Reads)
    (s : Extension.State) (w : World) (log : list Axios.Request) :
  ApiConfig.apiKey (Extension.getApiConfig config reads) = ""
  \/ ApiConfig.endpoint (Extension.getApiConfig config reads) = "" ->
  exists s',
    Extension.refreshUsage toFixed config reads s w log = (Return s', log)
    /\ Extension.lastUsage s' = Extension.lastUsage s
    /\ Vscode.text (Extension.statusBarItem s')
       = (if CCSwitch.isCCSwitchInstalled reads
          then "$(plug) 选择 Provider" else "$(key) Configure API")
    /\ Vscode.tooltip (Extension.statusBarItem s')
       = Some (Vscode.Plain
                 (if CCSwitch.isCCSwitchInstalled reads
                  then "点击选择 CC Switch Provider"
                  else "Click to configure API Key and Endpoint")).
Proof.
  intros H. eexists. split.
  - apply refreshUsage_prompt.
    destruct H as [H | H]; [left | right]; apply truthy_false_iff; exact H.
  - cbn. destruct (CCSwitch.isCCSwitchInstalled reads); repeat split.
Qed.

Lemma refreshUsage_unconfigured_witness :
  exists s',
    Extension.refreshUsage toFixed_exact empty_configuration no_ccswitch
      initial_state newapi_world [] = (Return s', [])
    /\ Extension.lastUsage s' = Extension.lastUsage initial_state
    /\ Vscode.text (Extension.statusBarItem s')
       = (if CCSwitch.isCCSwitchInstalled no_ccswitch
          then "$(plug) 选择 Provider" else "$(key) Configure API")
    /\ Vscode.tooltip (Extension.statusBarItem s')
       = Some (Vscode.Plain
                 (if CCSwitch.isCCSwitchInstalled no_ccswitch
                  then "点击选择 CC Switch Provider"
                  else "Click to configure API Key and Endpoint")).
Proof.
  apply (refreshUsage_unconfigured toFixed_exact empty_configuration no_ccswitch
           initial_state newapi_world []).
  left. reflexivity.
Defined.

(** X10. After a refresh whose record has no [error], the record is the last
    reading and the status bar shows one amount: the record's [remaining] when
    its [total] is positive; otherwise the configured initial balance less
    [totalUsed] when that balance is positive; otherwise today's usage.  A
    record's [remaining] is never shown when its [total] is not positive. *)
Theorem refreshUsage_balance (toFixed : Qc -> nat -> string)
    (config : Vscode.Configuration) (reads : CCSwitch.Reads)
    (s : Extension.State) (w : World) (log log' : list Axios.Request)
    (api : ApiConfig.t) (r : UsageResult) :
  Extension.getApiConfig config reads = api ->
  truthy (ApiConfig.apiKey api) = true ->
  truthy (ApiConfig.endpoint api) = true ->
  fetchUsage (new_UniversalProvider (ApiConfig.apiKey api) (ApiConfig.endpoint api)) w log
  = (Return r, log') ->
  error r = None ->
  exists s',
    Extension.refreshUsage toFixed config reads s w log = (Return s', log')
    /\ Extension.lastUsage s' = Some r
    /\ Vscode.text (Extension.statusBarItem s')
       = "$(credit-card) " ++ Extension.prefix_of (ApiConfig.providerName api)
         ++ (if gtb (total r) 0%Qc then "$" ++ toFixed (remaining r) 2%nat
             else if gtb (Vscode.initialBalance config) 0%Qc
                  then "$" ++ toFixed (Vscode.initialBalance config - totalUsed r)%Qc 2%nat
                  else "今日: $" ++ toFixed (todayUsed r) 2%nat).
Proof.
  intros <- Hk He F E. eexists.
  split; [exact (refreshUsage_fetch toFixed config reads s w log r log' Hk He F)|].
  match goal with
  | |- context [Extension.updateStatusBar toFixed config r ?s0] =>
      destruct (updateStatusBar_state toFixed config r s0) as [L [_ T]]
  end.
  rewrite L, T. unfold Extension.truthy_error. rewrite E.
  split; reflexivity.
Qed.

(** X11. After a refresh whose record has an [error], the record replaces the
    last reading, the status bar shows the warning sign followed by the
    message, and the tooltip is the bare message. *)
Theorem refreshUsage_warning (toFixed : Qc -> nat -> string)
    (config : Vscode.Configuration) (reads : CCSwitch.Reads)
    (s : Extension.State) (w : World) (log log' : list Axios.Request)
    (api : ApiConfig.t) (r : UsageResult) (message : string) :
  Extension.getApiConfig config reads = api ->
  truthy (ApiConfig.apiKey api) = true ->
  truthy (ApiConfig.endpoint api) = true ->
  fetchUsage (new_UniversalProvider (ApiConfig.apiKey api) (ApiConfig.endpoint api)) w log
  = (Return r, log') ->
  error r = Some message ->
  exists s',
    Extension.refreshUsage toFixed config reads s w log = (Return s', log')
    /\ Extension.lastUsage s' = Some r
    /\ Vscode.text (Extension.statusBarItem s')
       = "$(warning) " ++ Extension.prefix_of (ApiConfig.providerName api) ++ message
    /\ Vscode.tooltip (Extension.statusBarItem s') = Some (Vscode.Plain message).
Proof.
  intros <- Hk He F E.
  destruct (fetchUsage_error_is_unknown _ w log log' r message F E) as [-> | ->];
    cbn in E; injection E as <-;
    (eexists; split;
     [exact (refreshUsage_fetch toFixed config reads s w log _ log' Hk He F)|]);
    repeat split.
Qed.

Lemma refreshUsage_balance_witness :
  exists s',
    Extension.refreshUsage toFixed_exact example_configuration no_ccswitch
      initial_state newapi_world []
    = (Return s', newapi_requests example_provider newapi_world)
    /\ Extension.lastUsage s' = Some newapi_record
    /\ Vscode.text (Extension.statusBarItem s')
       = "$(credit-card) "
         ++ Extension.prefix_of
              (ApiConfig.providerName
                 (ApiConfig.make "sk-test" "https://api.example.com" ""))
         ++ (if gtb (total newapi_record) 0%Qc
             then "$" ++ toFixed_exact (remaining newapi_record) 2
             else if gtb (Vscode.initialBalance example_configuration) 0%Qc
                  then "$" ++ toFixed_exact
                                (Vscode.initialBalance example_configuration
                                 - totalUsed newapi_record)%Qc 2
                  else "今日: $" ++ toFixed_exact (todayUsed newapi_record) 2).
Proof.
  apply (refreshUsage_balance toFixed_exact example_configuration no_ccswitch
           initial_state newapi_world [] (newapi_requests example_provider newapi_world)
           (ApiConfig.make "sk-test" "https://api.example.com" "") newapi_record);
    reflexivity.
Defined.

Lemma refreshUsage_warning_witness :
  exists s',
    Extension.refreshUsage toFixed_exact example_configuration no_ccswitch
      initial_state dead_world []
    = (Return s',
       [subscription_request example_provider; self_request example_provider])
    /\ Extension.lastUsage s' = Some (unknown "Unable to detect API type")
    /\ Vscode.text (Extension.statusBarItem s')
       = "$(warning) "
         ++ Extension.prefix_of
              (ApiConfig.providerName
                 (ApiConfig.make "sk-test" "https://api.example.com" ""))
         ++ "Unable to detect API type"
    /\ Vscode.tooltip (Extension.statusBarItem s')
       = Some (Vscode.Plain "Unable to detect API type").
Proof.
  apply (refreshUsage_warning toFixed_exact example_configuration no_ccswitch
           initial_state dead_world []
           [subscription_request example_provider; self_request example_provider]
           (ApiConfig.make "sk-test" "https://api.example.com" "")
           (unknown "Unable to detect API type") "Unable to detect API type");
    reflexivity.
Defined.

(** The status bar after the scenarios: 5 dollars left of 50 on Format A;
    without a limit and without a configured balance, today's 2.50 dollars
    rather than the negative [remaining] of the record. *)
Example status_bar_scenarios :
  final_text (Extension.refreshUsage toFixed_exact example_configuration no_ccswitch
                initial_state newapi_world [])
  = Some "$(credit-card) $5.00"
  /\ final_text (Extension.refreshUsage toFixed_exact example_configuration no_ccswitch
                   initial_state no_limit_world [])
     = Some "$(credit-card) 今日: $2.50"
  /\ final_text (Extension.refreshUsage toFixed_exact example_configuration example_reads
                   initial_state openrouter_world [])
     = Some "$(credit-card) [Router] $87.66".
Proof. repeat split; vm_compute; reflexivity. Qed.

(** X12. A refresh starts no request exactly when the key in force is empty,
    the endpoint in force is empty, or the endpoint is the single character
    ['/']: the refresh lets ['/'] through, the provider then finds its
    endpoint empty once the slash is removed.  In every other case at least
    the subscription request of Format A is started. *)
Theorem refreshUsage_silent_iff (toFixed : Qc -> nat -> string)
    (config : Vscode.Configuration) (reads : CCSwitch.Reads)
    (s : Extension.State) (w : World) (log : list Axios.Request) :
  snd (Extension.refreshUsage toFixed config reads s w log) = log <->
  (ApiConfig.apiKey (Extension.getApiConfig config reads) = ""
   \/ ApiConfig.endpoint (Extension.getApiConfig config reads) = ""
   \/ ApiConfig.endpoint (Extension.getApiConfig config reads) = "/").
Proof.
  set (api := Extension.getApiConfig config reads).
  destruct (truthy (ApiConfig.apiKey api)) eqn:Hk;
    [destruct (truthy (ApiConfig.endpoint api)) eqn:He|].
  - set (this := new_UniversalProvider (ApiConfig.apiKey api) (ApiConfig.endpoint api)).
    destruct (String.eqb (replace_trailing_slash (ApiConfig.endpoint api)) "") eqn:Es.
    + apply String.eqb_eq in Es.
      assert (F : fetchUsage this w log
                  = (Return (unknown "API Key or Endpoint not configured"), log)).
      { apply fetchUsage_not_configured. right. exact Es. }
      rewrite (refreshUsage_fetch toFixed config reads s w log _ log Hk He F).
      split; [|reflexivity]. intros _. right.
      apply replace_trailing_slash_empty. exact Es.
    + apply String.eqb_neq in Es.
      assert (He' : truthy (endpoint this) = true).
      { apply truthy_true_iff. exact Es. }
      destruct (fetchUsage_run this w log Hk He')
        as [r [rA [rB [rC [F [SA _]]]]]].
      rewrite (refreshUsage_fetch toFixed config reads s w log r _ Hk He F).
      cbn [snd]. split.
      * intros E. exfalso.
        destruct SA as [-> | ->]; exact (app_cons_neq _ _ _ E).
      * apply truthy_true_iff in Hk. apply truthy_true_iff in He.
        intros [E | [E | E]]; [destruct (Hk E) | destruct (He E) |].
        destruct Es. apply replace_trailing_slash_empty. right. exact E.
  - rewrite (refreshUsage_prompt toFixed config reads s w log (or_intror He)).
    split; [|reflexivity]. intros _. right. left.
    apply truthy_false_iff. exact He.
  - rewrite (refreshUsage_prompt toFixed config reads s w log (or_introl Hk)).
    split; [|reflexivity]. intros _. left. apply truthy_false_iff. exact Hk.
Qed.

(** X13. With the endpoint ['/'] and a key, a refresh shows the provider's
    own complaint: the warning ['API Key or Endpoint not configured'] takes
    the place of the prompt, and the ['unknown'] record becomes the last
    reading. *)
Theorem refreshUsage_slash_endpoint (toFixed : Qc -> nat -> string)
    (config : Vscode.Configuration) (reads : CCSwitch.Reads)
    (s : Extension.State) (w : World) (log : list Axios.Request) :
  ApiConfig.apiKey (Extension.getApiConfig config reads) <> "" ->
  ApiConfig.endpoint (Extension.getApiConfig config reads) = "/" ->
  exists s',
    Extension.refreshUsage toFixed config reads s w log = (Return s', log)
    /\ Extension.lastUsage s' = Some (unknown "API Key or Endpoint not configured")
    /\ Vscode.text (Extension.statusBarItem s')
       = "$(warning) "
         ++ Extension.prefix_of
              (ApiConfig.providerName (Extension.getApiConfig config reads))
         ++ "API Key or Endpoint not configured".
Proof.
  intros Hk He.
  assert (F : fetchUsage
                (new_UniversalProvider
                   (ApiConfig.apiKey (Extension.getApiConfig config reads))
                   (ApiConfig.endpoint (Extension.getApiConfig config reads))) w log
              = (Return (unknown "API Key or Endpoint not configured"), log)).
  { apply fetchUsage_not_configured. right. cbn [endpoint new_UniversalProvider].
    rewrite He. reflexivity. }
  apply truthy_true_iff in Hk.
  assert (He' : truthy (ApiConfig.endpoint (Extension.getApiConfig config reads)) = true)
    by (rewrite He; reflexivity).
  eexists.
  split; [exact (refreshUsage_fetch toFixed config reads s w log _ log Hk He' F)|].
  repeat split.
Qed.

Lemma refreshUsage_slash_endpoint_witness :
  exists s',
    Extension.refreshUsage toFixed_exact slash_configuration no_ccswitch
      initial_state newapi_world [] = (Return s', [])
    /\ Extension.lastUsage s' = Some (unknown "API Key or Endpoint not configured")
    /\ Vscode.text (Extension.statusBarItem s')
       = "$(warning) "
         ++ Extension.prefix_of
              (ApiConfig.providerName
                 (Extension.getApiConfig slash_configuration no_ccswitch))
         ++ "API Key or Endpoint not configured".
Proof.
  apply (refreshUsage_slash_endpoint toFixed_exact slash_configuration no_ccswitch
           initial_state newapi_world []).
  - discriminate.
  - reflexivity.
Defined.

(** * The credentials in force *)

Lemma find_first {A : Type} (f : A -> bool) (l : list A) (x : A) :
  List.find f l = Some x ->
  f x = true
  /\ exists before after,
       l = (before ++ x :: after)%list /\ forall y, In y before -> f y = false.
Proof.
  induction l as [|a l IH]; [discriminate|].
  cbn [List.find]. destruct (f a) eqn:Fa.
  - intros E. injection E as <-. split; [exact Fa|].
    exists [], l. split; [reflexivity | intros y []].
  - intros E. destruct (IH E) as [Fx [before [after [-> Hb]]]].
    split; [exact Fx|]. exists (a :: before), after.
    split; [reflexivity|]. intros y [<- | Hy]; [exact Fa | exact (Hb y Hy)].
Qed.

(** X14. [getCurrentProvider] gives [null] only when CC Switch stores no
    provider.  Otherwise it gives a provider of the list: the first one
    marked current when there is one, and the first of the list when none is
    marked. *)
Theorem getCurrentProvider_choice (reads : CCSwitch.Reads) :
  match CCSwitch.getCurrentProvider reads with
  | None => CCSwitch.readCCSwitchProviders reads = []
  | Some p =>
      In p (CCSwitch.readCCSwitchProviders reads)
      /\ ((CCSwitch.isCurrent p = true
           /\ exists before after,
                CCSwitch.readCCSwitchProviders reads = (before ++ p :: after)%list
                /\ forall q, In q before -> CCSwitch.isCurrent q = false)
          \/ ((forall q, In q (CCSwitch.readCCSwitchProviders reads) ->
                         CCSwitch.isCurrent q = false)
              /\ exists rest, CCSwitch.readCCSwitchProviders reads = p :: rest))
  end.
Proof.
  unfold CCSwitch.getCurrentProvider.
  destruct (List.find CCSwitch.isCurrent (CCSwitch.readCCSwitchProviders reads))
    as [p|] eqn:F.
  - destruct (find_first _ _ _ F) as [C [before [after [E Hb]]]].
    split; [exact (proj1 (find_some _ _ F))|].
    left. split; [exact C|]. exists before, after. split; assumption.
  - destruct (CCSwitch.readCCSwitchProviders reads) as [|p rest] eqn:E;
      [reflexivity|].
    split; [left; reflexivity|]. right.
    split; [|exists rest; reflexivity].
    intros q Hq. exact (find_none _ _ F q Hq).
Qed.

Lemma getApiConfig_cases (config : Vscode.Configuration) (reads : CCSwitch.Reads) :
  (exists p,
     CCSwitch.isCCSwitchInstalled reads = true
     /\ CCSwitch.getCurrentProvider reads = Some p
     /\ CCSwitch.apiKey p <> "" /\ CCSwitch.endpoint p <> ""
     /\ Extension.getApiConfig config reads
        = ApiConfig.make (CCSwitch.apiKey p) (CCSwitch.endpoint p) (CCSwitch.name p))
  \/ (Extension.getApiConfig config reads
      = ApiConfig.make (Vscode.apiKey config) (Vscode.endpoint config) ""
      /\ (CCSwitch.isCCSwitchInstalled reads = false
          \/ CCSwitch.getCurrentProvider reads = None
          \/ exists p, CCSwitch.getCurrentProvider reads = Some p
                       /\ (CCSwitch.apiKey p = "" \/ CCSwitch.endpoint p = ""))).
Proof.
  unfold Extension.getApiConfig.
  destruct (CCSwitch.isCCSwitchInstalled reads); [|right; split; [|left]; reflexivity].
  destruct (CCSwitch.getCurrentProvider reads) as [p|];
    [|right; split; [|right; left]; reflexivity].
  destruct (truthy (CCSwitch.apiKey p)) eqn:Hk;
    [destruct (truthy (CCSwitch.endpoint p)) eqn:He|]; cbn [andb].
  - left. exists p. repeat split; try reflexivity; apply truthy_true_iff; assumption.
  - right. split; [reflexivity|]. right. right. exists p.
    split; [reflexivity|]. right. apply truthy_false_iff. exact He.
  - right. split; [reflexivity|]. right. right. exists p.
    split; [reflexivity|]. left. apply truthy_false_iff. exact Hk.
Qed.

(** X15. The credentials of a refresh come from one source, whole: either the
    key, the endpoint and the name of one provider stored by CC Switch, which
    then has both a key and an endpoint, or the key and the endpoint of the
    settings with no provider name.  The provider that [getCurrentProvider]
    picks decides: when it lacks the key or the endpoint the settings are
    used, and nothing of it is kept. *)
Theorem getApiConfig_one_source (config : Vscode.Configuration)
    (reads : CCSwitch.Reads) :
  (exists p,
     CCSwitch.isCCSwitchInstalled reads = true
     /\ In p (CCSwitch.readCCSwitchProviders reads)
     /\ CCSwitch.getCurrentProvider reads = Some p
     /\ CCSwitch.apiKey p <> "" /\ CCSwitch.endpoint p <> ""
     /\ Extension.getApiConfig config reads
        = ApiConfig.make (CCSwitch.apiKey p) (CCSwitch.endpoint p) (CCSwitch.name p))
  \/ (Extension.getApiConfig config reads
      = ApiConfig.make (Vscode.apiKey config) (Vscode.endpoint config) ""
      /\ (CCSwitch.isCCSwitchInstalled reads = false
          \/ CCSwitch.readCCSwitchProviders reads = []
          \/ exists p, CCSwitch.getCurrentProvider reads = Some p
                       /\ (CCSwitch.apiKey p = "" \/ CCSwitch.endpoint p = ""))).
Proof.
  destruct (getApiConfig_cases config reads)
    as [[p [I [G [K [E A]]]]] | [A [I | [G | P]]]].
  - left. exists p. repeat split; try assumption.
    unfold CCSwitch.getCurrentProvider in G.
    destruct (List.find CCSwitch.isCurrent (CCSwitch.readCCSwitchProviders reads))
      as [q|] eqn:F.
    + injection G as <-. exact (proj1 (find_some _ _ F)).
    + destruct (CCSwitch.readCCSwitchProviders reads) as [|q rest];
        [discriminate G|]. injection G as <-. left. reflexivity.
  - right. split; [exact A | left; exact I].
  - right. split; [exact A|]. right. left.
    unfold CCSwitch.getCurrentProvider in G.
    destruct (List.find CCSwitch.isCurrent (CCSwitch.readCCSwitchProviders reads));
      [discriminate G|].
    destruct (CCSwitch.readCCSwitchProviders reads); [reflexivity | discriminate G].
  - right. split; [exact A | right; right; exact P].
Qed.

Lemma fetchUsage_headers (this : UniversalProvider) (w : World)
    (log : list Axios.Request) :
  exists r requests,
    fetchUsage this w log = (Return r, (log ++ requests)%list)
    /\ forall rq, In rq requests ->
         Axios.headers rq = Axios.default_headers (client this).
Proof.
  destruct (truthy (apiKey this)) eqn:Hk; [destruct (truthy (endpoint this)) eqn:He|].
  - destruct (fetchUsage_run this w log Hk He)
      as [r [rA [rB [rC [F [SA [SB [SC _]]]]]]]].
    exists r, (rA ++ rB ++ rC)%list. split; [exact F|].
    intros rq Hin. apply in_app_or in Hin. destruct Hin as [Hin | Hin].
    + destruct SA as [-> | ->].
      * destruct Hin as [<- | []]. reflexivity.
      * destruct Hin as [<- | [<- | [<- | [<- | []]]]]; reflexivity.
    + apply in_app_or in Hin. destruct Hin as [Hin | Hin].
      * destruct SB as [-> | ->]; [destruct Hin|].
        destruct Hin as [<- | []]. reflexivity.
      * destruct SC as [-> | [-> _]]; [destruct Hin|].
        destruct Hin as [<- | []]. reflexivity.
  - exists (unknown "API Key or Endpoint not configured"), []. rewrite app_nil_r.
    split; [|intros rq []].
    apply fetchUsage_not_configured. right. apply truthy_false_iff. exact He.
  - exists (unknown "API Key or Endpoint not configured"), []. rewrite app_nil_r.
    split; [|intros rq []].
    apply fetchUsage_not_configured. left. apply truthy_false_iff. exact Hk.
Qed.

(** X16. When CC Switch is installed and the provider it points at has a key
    and an endpoint, a refresh works for that provider alone: its name
    becomes the current provider name, and every request carries the bearer
    header made from its key, whatever key the settings hold. *)
Theorem refreshUsage_ccswitch_key (toFixed : Qc -> nat -> string)
    (config : Vscode.Configuration) (reads : CCSwitch.Reads)
    (s : Extension.State) (w : World) (log : list Axios.Request)
    (p : CCSwitch.Provider) :
  CCSwitch.isCCSwitchInstalled reads = true ->
  CCSwitch.getCurrentProvider reads = Some p ->
  CCSwitch.apiKey p <> "" ->
  CCSwitch.endpoint p <> "" ->
  exists s' requests,
    Extension.refreshUsage toFixed config reads s w log
    = (Return s', (log ++ requests)%list)
    /\ Extension.currentProviderName s' = CCSwitch.name p
    /\ forall rq, In rq requests ->
         Axios.headers rq =
           [("Authorization", "Bearer " ++ CCSwitch.apiKey p);
            ("Content-Type", "application/json")].
Proof.
  intros I G K E.
  apply truthy_true_iff in K. apply truthy_true_iff in E.
  assert (A : Extension.getApiConfig config reads
              = ApiConfig.make (CCSwitch.apiKey p) (CCSwitch.endpoint p)
                  (CCSwitch.name p)).
  { unfold Extension.getApiConfig. rewrite I, G, K, E. reflexivity. }
  destruct (fetchUsage_headers
              (new_UniversalProvider (CCSwitch.apiKey p) (CCSwitch.endpoint p)) w log)
    as [r [requests [F H]]].
  assert (K' : truthy (ApiConfig.apiKey (Extension.getApiConfig config reads)) = true)
    by (rewrite A; exact K).
  assert (E' : truthy (ApiConfig.endpoint (Extension.getApiConfig config reads)) = true)
    by (rewrite A; exact E).
  eexists. exists requests. split.
  - apply (refreshUsage_fetch toFixed config reads s w log r _ K' E').
    rewrite A. exact F.
  - match goal with
    | |- context [Extension.updateStatusBar toFixed config r ?s0] =>
        destruct (updateStatusBar_state toFixed config r s0) as [_ [N _]]
    end.
    rewrite N, A. split; [reflexivity | exact H].
Qed.

Lemma refreshUsage_ccswitch_key_witness :
  exists s' requests,
    Extension.refreshUsage toFixed_exact example_configuration example_reads
      initial_state openrouter_world []
    = (Return s', ([] ++ requests)%list)
    /\ Extension.currentProviderName s' = CCSwitch.name router_provider
    /\ forall rq, In rq requests ->
         Axios.headers rq =
           [("Authorization", "Bearer " ++ CCSwitch.apiKey router_provider);
            ("Content-Type", "application/json")].
Proof.
  apply (refreshUsage_ccswitch_key toFixed_exact example_configuration example_reads
           initial_state openrouter_world [] router_provider).
  - reflexivity.
  - reflexivity.
  - discriminate.
  - discriminate.
Defined.

(** * The single-backend providers beside [UniversalProvider] *)

Lemma or_string_empty (a : option string) :
  Legacy.or_string a "" = match a with Some s => s | None => "" end.
Proof.
  destruct a as [s|]; [|reflexivity]. cbn.
  destruct (truthy s) eqn:T; [reflexivity|].
  apply truthy_false_iff in T. symmetry. exact T.
Qed.

Lemma ltb_length_truthy (s : string) :
  truthy s = true -> Nat.ltb 0 (String.length s) = true.
Proof. destruct s; [discriminate | reflexivity]. Qed.

Lemma half_unit : (Q2Qc 2 * / Q2Qc 1000000)%Qc = (/ Q2Qc 500000)%Qc.
Proof. apply Qc_is_canon. reflexivity. Qed.

Lemma Qcdiv_half_unit (q : Qc) :
  (q / Q2Qc 500000)%Qc = (Q2Qc 2 * (q / Q2Qc 1000000))%Qc.
Proof. unfold Qcdiv. rewrite <- half_unit. ring. Qed.

Lemma Qcmult_hundred (q : Qc) : (Q2Qc 100 * (q / Q2Qc 100))%Qc = q.
Proof. apply Qcmult_div_r. intros E. discriminate (f_equal Qcanon.this E). Qed.

Section SameBackend.

Variables (x : Legacy.Reads) (config : ProviderConfig.t).
Variables (w : World) (log : list Axios.Request).

Hypothesis has_key : ProviderConfig.apiKey config <> "".

Lemma universal_of_requests :
  self_request (universal_of config)
  = Axios.mkRequest
      (Legacy.oneapi_baseUrl (Legacy.new_OneAPIProvider config) ++ "/api/user/self") []
      (Legacy.getDefaultHeaders config) 30000
  /\ key_request (universal_of config)
     = Axios.mkRequest "https://openrouter.ai/api/v1/auth/key" []
         (Legacy.getDefaultHeaders config) 30000
  /\ subscription_request (universal_of config)
     = Axios.mkRequest
         (Legacy.ccapi_baseUrl (Legacy.new_CCAPIProvider config)
          ++ "/v1/dashboard/billing/subscription") []
         (Legacy.getDefaultHeaders config) 30000
  /\ usage_request (universal_of config) (yearStart w) (todayStart w)
     = Axios.mkRequest
         (Legacy.ccapi_baseUrl (Legacy.new_CCAPIProvider config)
          ++ "/v1/dashboard/billing/usage")
         (usage_params (yearStart w) (todayStart w))
         (Legacy.getDefaultHeaders config) 30000.
Proof. repeat split. Qed.

Lemma OneAPIProvider_configured :
  replace_trailing_slash (Legacy.or_string (ProviderConfig.endpoint config) "") <> "" ->
  Legacy.OneAPIProvider_isConfigured (Legacy.new_OneAPIProvider config) = true
  /\ Legacy.OneAPIProvider_isConfigured (Legacy.new_NewAPIProvider config) = true
  /\ Legacy.CCAPIProvider_isConfigured (Legacy.new_CCAPIProvider config) = true.
Proof.
  intros He. apply truthy_true_iff in He. pose proof has_key as Hk.
  apply truthy_true_iff in Hk.
  unfold Legacy.OneAPIProvider_isConfigured, Legacy.CCAPIProvider_isConfigured,
    Legacy.new_NewAPIProvider, Legacy.new_OneAPIProvider, Legacy.new_CCAPIProvider,
    Legacy.new_BaseProvider.
  cbn [Legacy.config Legacy.oneapi_base Legacy.oneapi_baseUrl Legacy.ccapi_base
       Legacy.ccapi_baseUrl Legacy.client].
  rewrite Hk, He, (ltb_length_truthy _ Hk). repeat split.
Qed.

End SameBackend.

(** X17. For one and the same answer of [/api/user/self], reached by the same
    request, [UniversalProvider] reports twice what [OneAPIProvider] reports:
    the first divides the raw quota by 500000, the second by 1000000.  Used,
    remaining and total all double. *)
Theorem oneapi_amounts_double (x : Legacy.Reads) (config : ProviderConfig.t)
    (w : World) (log : list Axios.Request)
    (response : Axios.Response) (data : Json.Inner) :
  ProviderConfig.apiKey config <> "" ->
  replace_trailing_slash (Legacy.or_string (ProviderConfig.endpoint config) "") <> "" ->
  respond w (self_request (universal_of config)) = Fulfilled response ->
  opt_chain (Axios.data response) Json.data = Some data ->
  exists r u q,
    tryOneAPI (universal_of config) w log
    = (Return (Some r), (log ++ [self_request (universal_of config)])%list)
    /\ Legacy.OneAPIProvider_fetchUsage x (Legacy.new_OneAPIProvider config) w log
       = (Return u, (log ++ [self_request (universal_of config)])%list)
    /\ UsageData.error u = None
    /\ UsageData.quota u = Some q
    /\ UsageData.totalCost u = QuotaInfo.used q
    /\ totalUsed r = (Q2Qc 2 * QuotaInfo.used q)%Qc
    /\ remaining r = (Q2Qc 2 * QuotaInfo.remaining q)%Qc
    /\ total r = (Q2Qc 2 * QuotaInfo.total q)%Qc.
Proof.
  intros Hk He Hr Hd.
  destruct (OneAPIProvider_configured config Hk He) as [C _].
  eexists. eexists. eexists.
  split; [exact (tryOneAPI_data (universal_of config) w log response data Hr Hd)|].
  split.
  - unfold Legacy.OneAPIProvider_fetchUsage. rewrite C. cbn [negb].
    unfold bind, Legacy.get_or_error.
    change (Axios.mkRequest _ _ _ _) with (self_request (universal_of config)).
    rewrite Hr, Hd. reflexivity.
  - cbn. repeat split.
    + apply Qcdiv_half_unit.
    + apply Qcdiv_half_unit.
    + rewrite !Qcdiv_half_unit. cbn [QuotaInfo.total]. ring.
Qed.

Lemma oneapi_amounts_double_witness :
  exists r u q,
    tryOneAPI (universal_of example_config) oneapi_world []
    = (Return (Some r), ([] ++ [self_request (universal_of example_config)])%list)
    /\ Legacy.OneAPIProvider_fetchUsage example_reads_legacy
         (Legacy.new_OneAPIProvider example_config) oneapi_world []
       = (Return u, ([] ++ [self_request (universal_of example_config)])%list)
    /\ UsageData.error u = None
    /\ UsageData.quota u = Some q
    /\ UsageData.totalCost u = QuotaInfo.used q
    /\ totalUsed r = (Q2Qc 2 * QuotaInfo.used q)%Qc
    /\ remaining r = (Q2Qc 2 * QuotaInfo.remaining q)%Qc
    /\ total r = (Q2Qc 2 * QuotaInfo.total q)%Qc.
Proof.
  apply (oneapi_amounts_double example_reads_legacy example_config oneapi_world []
           (Axios.mkResponse
              (Some (Json.mkBody false None None
                       (Some (Json.mkInner (Some (Q2Qc 2500000)) (Some (Q2Qc 500000))
                                None None)))))
           (Json.mkInner (Some (Q2Qc 2500000)) (Some (Q2Qc 500000)) None None)).
  - discriminate.
  - discriminate.
  - reflexivity.
  - reflexivity.
Defined.

Lemma or_string_truthy (a : option string) (b : string) :
  b <> "" -> Legacy.or_string a b <> "".
Proof.
  intros Hb. destruct a as [s|]; [|exact Hb]. cbn.
  destruct (truthy s) eqn:T; [|exact Hb]. apply truthy_true_iff. exact T.
Qed.

(** X18. [NewAPIProvider] labels its records in two ways: a reading is
    labelled ['oneapi'] (the label written in the inherited [fetchUsage]),
    an error record ['newapi'] (the provider's own id).  An error record has
    a non-empty message, no quota and no cost. *)
Theorem newapi_provider_labels (x : Legacy.Reads) (config : ProviderConfig.t)
    (w : World) (log : list Axios.Request) :
  exists u requests,
    Legacy.OneAPIProvider_fetchUsage x (Legacy.new_NewAPIProvider config) w log
    = (Return u, (log ++ requests)%list)
    /\ ((UsageData.error u = None /\ UsageData.provider u = "oneapi"
         /\ exists q, UsageData.quota u = Some q)
        \/ (exists m, UsageData.error u = Some m /\ m <> ""
                      /\ UsageData.provider u = "newapi"
                      /\ UsageData.quota u = None
                      /\ UsageData.totalCost u = 0%Qc)).
Proof.
  unfold Legacy.OneAPIProvider_fetchUsage.
  destruct (Legacy.OneAPIProvider_isConfigured (Legacy.new_NewAPIProvider config)).
  - cbn [negb]. unfold bind, Legacy.get_or_error.
    match goal with
    | |- context [respond w ?rq] => destruct (respond w rq) as [|response]
    end.
    + eexists. eexists. split; [reflexivity|]. right. eexists.
      split; [reflexivity|]. split; [|repeat split].
      apply or_string_truthy. apply or_string_truthy. discriminate.
    + destruct (opt_chain (Axios.data response) Json.data) as [data|].
      * eexists. eexists. split; [reflexivity|]. left.
        split; [reflexivity|]. split; [reflexivity|]. eexists. reflexivity.
      * eexists. eexists. split; [reflexivity|]. right. eexists.
        split; [reflexivity|]. split; [discriminate | repeat split].
  - cbn [negb]. exists (Legacy.createEmptyUsageData x
                          (Legacy.oneapi_base (Legacy.new_NewAPIProvider config))
                          (Some "API key or endpoint not configured")), [].
    rewrite app_nil_r. split; [reflexivity|]. right. eexists.
    split; [reflexivity|]. split; [discriminate | repeat split].
Qed.

(** X19. [OpenRouterProvider] asks the key endpoint whatever the endpoint of
    its configuration, where the Format C probe of [UniversalProvider] asks
    only when the endpoint mentions ['openrouter.ai'].  When both ask, it is
    the same request and they agree: the cost is [totalUsed]; with a positive
    limit the quota is the probe's [total], [totalUsed] and [remaining];
    without one the provider gives no quota where the probe gives
    [remaining = 0]. *)
Theorem openrouter_provider_agrees (x : Legacy.Reads) (config : ProviderConfig.t)
    (w : World) (log : list Axios.Request)
    (response : Axios.Response) (data : Json.Inner) :
  ProviderConfig.apiKey config <> "" ->
  respond w (key_request (universal_of config)) = Fulfilled response ->
  opt_chain (Axios.data response) Json.data = Some data ->
  exists u,
    Legacy.OpenRouterProvider_fetchUsage x (Legacy.new_OpenRouterProvider config) w log
    = (Return u, (log ++ [key_request (universal_of config)])%list)
    /\ UsageData.error u = None
    /\ (includes (endpoint (universal_of config)) "openrouter.ai" = false ->
        tryOpenRouter (universal_of config) w log = (Return None, log))
    /\ (includes (endpoint (universal_of config)) "openrouter.ai" = true ->
        exists r,
          tryOpenRouter (universal_of config) w log
          = (Return (Some r), (log ++ [key_request (universal_of config)])%list)
          /\ UsageData.totalCost u = totalUsed r
          /\ ((0 < total r)%Qc ->
              UsageData.quota u
              = Some (QuotaInfo.make (total r) (totalUsed r) (remaining r) "dollars"))
          /\ (~ (0 < total r)%Qc ->
              UsageData.quota u = None /\ remaining r = 0%Qc)).
Proof.
  intros Hk Hr Hd.
  assert (C : Legacy.OpenRouterProvider_isConfigured
                (Legacy.new_OpenRouterProvider config) = true).
  { apply truthy_true_iff in Hk. unfold Legacy.OpenRouterProvider_isConfigured.
    cbn [Legacy.new_OpenRouterProvider Legacy.new_BaseProvider Legacy.config].
    rewrite Hk, (ltb_length_truthy _ Hk). reflexivity. }
  eexists. split.
  - unfold Legacy.OpenRouterProvider_fetchUsage. rewrite C. cbn [negb].
    unfold bind, Legacy.get_or_error.
    change (Axios.mkRequest _ _ _ _) with (key_request (universal_of config)).
    rewrite Hr, Hd. reflexivity.
  - split; [reflexivity|]. split.
    + apply tryOpenRouter_other_host.
    + intros host. eexists.
      split; [exact (tryOpenRouter_data (universal_of config) w log host
                       response data Hr Hd)|].
      cbn. split; [reflexivity|].
      destruct (gtb (or_zero (Json.limit data)) 0%Qc) eqn:G; split.
      * intros _. reflexivity.
      * intros N. destruct N. apply gtb_true_iff. exact G.
      * intros P. apply gtb_true_iff in P. rewrite P in G. discriminate G.
      * intros _. split; reflexivity.
Qed.

Lemma openrouter_provider_agrees_witness :
  exists u,
    Legacy.OpenRouterProvider_fetchUsage example_reads_legacy
      (Legacy.new_OpenRouterProvider router_config) openrouter_world []
    = (Return u, ([] ++ [key_request (universal_of router_config)])%list)
    /\ UsageData.error u = None
    /\ (includes (endpoint (universal_of router_config)) "openrouter.ai" = false ->
        tryOpenRouter (universal_of router_config) openrouter_world [] = (Return None, []))
    /\ (includes (endpoint (universal_of router_config)) "openrouter.ai" = true ->
        exists r,
          tryOpenRouter (universal_of router_config) openrouter_world []
          = (Return (Some r), ([] ++ [key_request (universal_of router_config)])%list)
          /\ UsageData.totalCost u = totalUsed r
          /\ ((0 < total r)%Qc ->
              UsageData.quota u
              = Some (QuotaInfo.make (total r) (totalUsed r) (remaining r) "dollars"))
          /\ (~ (0 < total r)%Qc ->
              UsageData.quota u = None /\ remaining r = 0%Qc)).
Proof.
  apply (openrouter_provider_agrees example_reads_legacy router_config
           openrouter_world []
           (Axios.mkResponse
              (Some (Json.mkBody false None None
                       (Some (Json.mkInner None None (Some (Q2Qc (1234 # 100)))
                                (Some (Q2Qc 100)))))))
           (Json.mkInner None None (Some (Q2Qc (1234 # 100))) (Some (Q2Qc 100)))).
  - discriminate.
  - reflexivity.
  - reflexivity.
Defined.

(** X20. [CCAPIProvider] reads the usage of the year as dollars where Format A
    of [UniversalProvider] reads the same answer as cents: whenever the probe
    gives a record, the provider's cost is 100 times its [totalUsed].  The
    provider also survives a subscription request that fails, giving the cost
    without quota, where the probe gives [null]. *)
Theorem ccapi_cost_hundredfold (x : Legacy.Reads) (config : ProviderConfig.t)
    (w : World) (log : list Axios.Request) (year : Axios.Response) :
  ProviderConfig.apiKey config <> "" ->
  replace_trailing_slash (Legacy.or_string (ProviderConfig.endpoint config) "") <> "" ->
  respond w (usage_request (universal_of config) (yearStart w) (todayStart w))
  = Fulfilled year ->
  exists u,
    Legacy.CCAPIProvider_fetchUsage x (Legacy.new_CCAPIProvider config) w log
    = (Return u,
       (log ++ [subscription_request (universal_of config);
                usage_request (universal_of config) (yearStart w) (todayStart w)])%list)
    /\ UsageData.error u = None
    /\ UsageData.totalCost u = or_zero (opt_chain (Axios.data year) Json.total_usage)
    /\ (forall r log',
          tryNewAPIBilling (universal_of config) w log = (Return (Some r), log') ->
          UsageData.totalCost u = (Q2Qc 100 * totalUsed r)%Qc)
    /\ (respond w (subscription_request (universal_of config)) = Rejected ->
        tryNewAPIBilling (universal_of config) w log
        = (Return None, (log ++ [subscription_request (universal_of config)])%list)
        /\ UsageData.quota u = None).
Proof.
  intros Hk He Hy.
  destruct (OneAPIProvider_configured config Hk He) as [_ [_ C]].
  assert (R : Legacy.CCAPIProvider_fetchUsage x (Legacy.new_CCAPIProvider config) w log
              = (Return
                   (UsageData.make "ccapi" 0%Qc 0%Qc 0%Qc
                      (or_zero (opt_chain (Axios.data year) Json.total_usage)) "USD" 0%Qc
                      (let hardLimit :=
                         match respond w (subscription_request (universal_of config)) with
                         | Rejected => 0%Qc
                         | Fulfilled subResponse =>
                             or_zero (opt_chain (Axios.data subResponse)
                                        Json.hard_limit_usd)
                         end in
                       if gtb hardLimit 0%Qc
                       then Some (QuotaInfo.make hardLimit
                                    (or_zero (opt_chain (Axios.data year) Json.total_usage))
                                    (hardLimit
                                     - or_zero (opt_chain (Axios.data year)
                                                  Json.total_usage))%Qc
                                    "dollars")
                       else None)
                      (UsagePeriod.make
                         (JsDate.of_ymd (JsDate.getFullYear (Legacy.now x)) 0 1)
                         (Legacy.now x) "all_time")
                      (Legacy.now x) None),
                 (log ++ [subscription_request (universal_of config);
                          usage_request (universal_of config)
                            (yearStart w) (todayStart w)])%list)).
  { unfold Legacy.CCAPIProvider_fetchUsage. rewrite C. cbn [negb].
    unfold bind, Legacy.get_or_error, ask.
    change (Axios.mkRequest (_ ++ "/v1/dashboard/billing/subscription") _ _ _)
      with (subscription_request (universal_of config)).
    change (Axios.mkRequest (_ ++ "/v1/dashboard/billing/usage") _ _ _)
      with (usage_request (universal_of config) (yearStart w) (todayStart w)).
    rewrite Hy, <- app_assoc.
    destruct (respond w (subscription_request (universal_of config))); reflexivity. }
  eexists. split; [exact R|].
  split; [reflexivity|]. split; [reflexivity|]. split.
  - intros r log' P. cbn [UsageData.totalCost].
    destruct (respond w (subscription_request (universal_of config)))
      as [|[[sub|]]] eqn:Hs.
    + rewrite (tryNewAPIBilling_rejected _ w log Hs) in P. discriminate P.
    + destruct (Json.error sub) eqn:E.
      * rewrite (tryNewAPIBilling_error _ w log _ sub Hs eq_refl E) in P.
        discriminate P.
      * rewrite (tryNewAPIBilling_usage _ w log _ sub Hs eq_refl E), Hy in P.
        destruct (respond w (usage_request (universal_of config)
                               (todayStart w) (todayStart w))) as [|r1];
          [discriminate P|].
        destruct (respond w (usage_request (universal_of config)
                               (monthStart w) (todayStart w))) as [|r2];
          [discriminate P|].
        cbn in P. injection P as <- _. cbn [totalUsed].
        symmetry. apply Qcmult_hundred.
    + rewrite (tryNewAPIBilling_no_data _ w log _ Hs eq_refl) in P. discriminate P.
  - intros Hs. split; [exact (tryNewAPIBilling_rejected _ w log Hs)|].
    cbn [UsageData.quota]. rewrite Hs. reflexivity.
Qed.

Lemma ccapi_cost_hundredfold_witness :
  exists u,
    Legacy.CCAPIProvider_fetchUsage example_reads_legacy
      (Legacy.new_CCAPIProvider example_config) newapi_world []
    = (Return u,
       ([] ++ [subscription_request (universal_of example_config);
               usage_request (universal_of example_config)
                 (yearStart newapi_world) (todayStart newapi_world)])%list)
    /\ UsageData.error u = None
    /\ UsageData.totalCost u
       = or_zero (opt_chain (Axios.data (Axios.mkResponse (Some (usage_body (Q2Qc 4500)))))
                    Json.total_usage)
    /\ (forall r log',
          tryNewAPIBilling (universal_of example_config) newapi_world []
          = (Return (Some r), log') ->
          UsageData.totalCost u = (Q2Qc 100 * totalUsed r)%Qc)
    /\ (respond newapi_world (subscription_request (universal_of example_config))
        = Rejected ->
        tryNewAPIBilling (universal_of example_config) newapi_world []
        = (Return None, ([] ++ [subscription_request (universal_of example_config)])%list)
        /\ UsageData.quota u = None).
Proof.
  apply (ccapi_cost_hundredfold example_reads_legacy example_config newapi_world []
           (Axios.mkResponse (Some (usage_body (Q2Qc 4500))))).
  - discriminate.
  - discriminate.
  - reflexivity.
Defined.

(** X21. None of the three single-backend providers starts a request when it
    is not configured: [OneAPIProvider] and [CCAPIProvider] need a key and an
    endpoint, [OpenRouterProvider] a key only.  Unconfigured they return the
    empty record with their fixed message; configured they start exactly one
    request, [CCAPIProvider] exactly two, whatever the answers. *)
Theorem single_backend_providers_total (x : Legacy.Reads) (config : ProviderConfig.t)
    (w : World) (log : list Axios.Request) :
  (exists u requests,
     Legacy.OneAPIProvider_fetchUsage x (Legacy.new_OneAPIProvider config) w log
     = (Return u, (log ++ requests)%list)
     /\ (if Legacy.OneAPIProvider_isConfigured (Legacy.new_OneAPIProvider config)
         then List.length requests = 1%nat
         else requests = []
              /\ u = Legacy.createEmptyUsageData x (Legacy.new_BaseProvider "oneapi" config)
                       (Some "API key or endpoint not configured")))
  /\ (exists u requests,
        Legacy.OpenRouterProvider_fetchUsage x (Legacy.new_OpenRouterProvider config) w log
        = (Return u, (log ++ requests)%list)
        /\ (if Legacy.OpenRouterProvider_isConfigured (Legacy.new_OpenRouterProvider config)
            then List.length requests = 1%nat
            else requests = []
                 /\ u = Legacy.createEmptyUsageData x
                          (Legacy.new_BaseProvider "openrouter" config)
                          (Some "API key not configured")))
  /\ (exists u requests,
        Legacy.CCAPIProvider_fetchUsage x (Legacy.new_CCAPIProvider config) w log
        = (Return u, (log ++ requests)%list)
        /\ (if Legacy.CCAPIProvider_isConfigured (Legacy.new_CCAPIProvider config)
            then List.length requests = 2%nat
            else requests = []
                 /\ u = Legacy.createEmptyUsageData x
                          (Legacy.new_BaseProvider "ccapi" config)
                          (Some "API key or endpoint not configured"))).
Proof.
  split; [|split].
  - unfold Legacy.OneAPIProvider_fetchUsage.
    destruct (Legacy.OneAPIProvider_isConfigured (Legacy.new_OneAPIProvider config)).
    + cbn [negb]. unfold bind, Legacy.get_or_error.
      match goal with
      | |- context [respond w ?rq] => destruct (respond w rq) as [|response]
      end.
      * eexists. eexists. split; reflexivity.
      * destruct (opt_chain (Axios.data response) Json.data);
          eexists; eexists; split; reflexivity.
    + cbn [negb]. eexists. exists []. rewrite app_nil_r.
      split; [reflexivity | split; reflexivity].
  - unfold Legacy.OpenRouterProvider_fetchUsage.
    destruct (Legacy.OpenRouterProvider_isConfigured
                (Legacy.new_OpenRouterProvider config)).
    + cbn [negb]. unfold bind, Legacy.get_or_error.
      match goal with
      | |- context [respond w ?rq] => destruct (respond w rq) as [|response]
      end.
      * eexists. eexists. split; reflexivity.
      * destruct (opt_chain (Axios.data response) Json.data);
          eexists; eexists; split; reflexivity.
    + cbn [negb]. eexists. exists []. rewrite app_nil_r.
      split; [reflexivity | split; reflexivity].
  - unfold Legacy.CCAPIProvider_fetchUsage.
    destruct (Legacy.CCAPIProvider_isConfigured (Legacy.new_CCAPIProvider config)).
    + cbn [negb]. unfold bind, Legacy.get_or_error, ask.
      match goal with
      | |- context [respond w (Axios.mkRequest (?u ++ "/v1/dashboard/billing/usage")
                                 ?p ?h ?t)] =>
          destruct (respond w (Axios.mkRequest (u ++ "/v1/dashboard/billing/usage")
                                 p h t)) as [|response]
      end.
      * eexists. eexists. rewrite <- app_assoc. split; reflexivity.
      * eexists. eexists. rewrite <- app_assoc. split; reflexivity.
    + cbn [negb]. eexists. exists []. rewrite app_nil_r.
      split; [reflexivity | split; reflexivity].
Qed.

(** * The cost estimates *)

Lemma Qc_small_constants :
  (/ Q2Qc 1000 * Q2Qc (1 # 100))%Qc = (/ Q2Qc 100000)%Qc
  /\ (/ Q2Qc 1000 * Q2Qc (3 # 100))%Qc = (Q2Qc 3 * / Q2Qc 100000)%Qc
  /\ (Q2Qc 15 = Q2Qc 5 * Q2Qc 3)%Qc
  /\ (Q2Qc (3 # 100) = Q2Qc 3 * Q2Qc (1 # 100))%Qc.
Proof. repeat split; apply Qc_is_canon; reflexivity. Qed.

(** X22. Both estimates are additive, so that estimating on the summed token
    counts, as the providers do, is the same as summing the estimates of the
    entries; an output token weighs three input tokens for [OpenAIProvider]
    and five for [AnthropicProvider]; and with token counts that are not
    negative the estimate is not negative. *)
Theorem estimateCost_additive (p1 c1 p2 c2 : Qc) :
  OpenAIProvider_estimateCost (p1 + p2) (c1 + c2)
  = (OpenAIProvider_estimateCost p1 c1 + OpenAIProvider_estimateCost p2 c2)%Qc
  /\ AnthropicProvider_estimateCost (p1 + p2) (c1 + c2)
     = (AnthropicProvider_estimateCost p1 c1 + AnthropicProvider_estimateCost p2 c2)%Qc
  /\ OpenAIProvider_estimateCost p1 c1 = ((p1 + Q2Qc 3 * c1) / Q2Qc 100000)%Qc
  /\ OpenAIProvider_estimateCost 0 c1 = OpenAIProvider_estimateCost (Q2Qc 3 * c1) 0
  /\ AnthropicProvider_estimateCost 0 c1 = AnthropicProvider_estimateCost (Q2Qc 5 * c1) 0
  /\ ((0 <= p1)%Qc -> (0 <= c1)%Qc ->
      (0 <= OpenAIProvider_estimateCost p1 c1)%Qc
      /\ (0 <= AnthropicProvider_estimateCost p1 c1)%Qc).
Proof.
  destruct Qc_small_constants as [K1 [K3 [K15 K03]]].
  unfold OpenAIProvider_estimateCost, AnthropicProvider_estimateCost, Qcdiv.
  cbv zeta.
  split; [ring|]. split; [ring|]. split.
  - rewrite <- !Qcmult_assoc, K1, K3. ring.
  - split; [rewrite K03; ring|]. split; [rewrite K15; ring|].
    intros Hp Hc.
    assert (P : forall a k : Qc, (0 <= a)%Qc -> (0 <= k)%Qc -> (0 <= a * k)%Qc).
    { intros a k Ha Hk. rewrite <- (Qcmult_0_l k).
      apply Qcmult_le_compat_r; assumption. }
    split; apply Qcplus_nonneg; repeat apply P;
      try assumption; try (vm_compute; discriminate).
Qed.

Lemma estimateCost_additive_witness :
  OpenAIProvider_estimateCost (Q2Qc 1000 + Q2Qc 2000) (Q2Qc 500 + Q2Qc 1500)
  = (OpenAIProvider_estimateCost (Q2Qc 1000) (Q2Qc 500)
     + OpenAIProvider_estimateCost (Q2Qc 2000) (Q2Qc 1500))%Qc
  /\ AnthropicProvider_estimateCost (Q2Qc 1000 + Q2Qc 2000) (Q2Qc 500 + Q2Qc 1500)
     = (AnthropicProvider_estimateCost (Q2Qc 1000) (Q2Qc 500)
        + AnthropicProvider_estimateCost (Q2Qc 2000) (Q2Qc 1500))%Qc
  /\ OpenAIProvider_estimateCost (Q2Qc 1000) (Q2Qc 500)
     = ((Q2Qc 1000 + Q2Qc 3 * Q2Qc 500) / Q2Qc 100000)%Qc
  /\ OpenAIProvider_estimateCost 0 (Q2Qc 500)
     = OpenAIProvider_estimateCost (Q2Qc 3 * Q2Qc 500) 0
  /\ AnthropicProvider_estimateCost 0 (Q2Qc 500)
     = AnthropicProvider_estimateCost (Q2Qc 5 * Q2Qc 500) 0
  /\ ((0 <= Q2Qc 1000)%Qc -> (0 <= Q2Qc 500)%Qc ->
      (0 <= OpenAIProvider_estimateCost (Q2Qc 1000) (Q2Qc 500))%Qc
      /\ (0 <= AnthropicProvider_estimateCost (Q2Qc 1000) (Q2Qc 500))%Qc).
Proof.
  exact (estimateCost_additive (Q2Qc 1000) (Q2Qc 500) (Q2Qc 2000) (Q2Qc 1500)).
Defined.
